(** * Call-pro signaling server: room lifecycle and relay

    A shallow embedding of the socket.io signaling server (the variant with
    acknowledgement callbacks, and the variant of [server.js] without
    them) together with the properties of its room registry, relay,
    offline-message queue and call accounting. *)

From Stdlib Require Import List String Ascii Bool Arith ZArith NArith QArith Lia.
From Stdlib Require Import Recdef.
Import ListNotations.
Open Scope string_scope.
Open Scope list_scope.

Set Implicit Arguments.

(** ** Plain JavaScript objects used as string-keyed tables

    [db.rooms] and [db.offlineMessages] are object literals indexed by room
    code.  An object is kept as the list of its own properties in the order
    [for ... in] enumerates them: array-index keys in ascending numeric
    order first, then the other keys in creation order.  A lookup [o[k]]
    that finds no own property goes on to [Object.prototype]; the names
    found there are listed in [Object_prototype].  Strings stand for
    sequences of 8-bit code units. *)
Module JsObject.

Definition t (V : Type) : Type := list (string * V).

Definition digit (c : ascii) : option N :=
  let n := N_of_ascii c in
  if ((48 <=? n) && (n <=? 57))%N then Some (n - 48)%N else None.

Fixpoint digits (acc : N) (s : string) : option N :=
  match s with
  | EmptyString => Some acc
  | String c s' =>
      match digit c with
      | Some d => digits (10 * acc + d)%N s'
      | None => None
      end
  end.

(** A canonical numeric string below 2^32 - 1 is an array index. *)
Definition array_index (k : string) : option N :=
  match k with
  | EmptyString => None
  | String c rest =>
      if (Ascii.eqb c "0" && negb (String.eqb rest ""))%bool then None
      else if (10 <? String.length k)%nat then None
      else match digits 0 k with
           | Some n => if (n <=? 4294967294)%N then Some n else None
           | None => None
           end
  end.

Section Ops.
Variable V : Type.

Fixpoint get (k : string) (o : t V) : option V :=
  match o with
  | [] => None
  | (k', v) :: o' => if String.eqb k k' then Some v else get k o'
  end.

Definition has (k : string) (o : t V) : bool :=
  match get k o with Some _ => true | None => false end.

(** [delete o[k]] *)
Definition delete (k : string) (o : t V) : t V :=
  filter (fun p => negb (String.eqb k (fst p))) o.

Fixpoint replace (k : string) (v : V) (o : t V) : t V :=
  match o with
  | [] => []
  | (k', v') :: o' =>
      if String.eqb k k' then (k', v) :: o' else (k', v') :: replace k v o'
  end.

(** Position of a fresh array-index key [n]: before the first property
    that is not an array index or has a larger index. *)
Fixpoint insert_index (n : N) (k : string) (v : V) (o : t V) : t V :=
  match o with
  | [] => [(k, v)]
  | (k', v') :: o' =>
      match array_index k' with
      | Some m =>
          if (m <? n)%N then (k', v') :: insert_index n k v o'
          else (k, v) :: o
      | None => (k, v) :: o
      end
  end.

(** [o[k] = v] *)
Definition set (k : string) (v : V) (o : t V) : t V :=
  if has k o then replace k v o
  else match array_index k with
       | Some n => insert_index n k v o
       | None => o ++ [(k, v)]
       end.

(** The keys [for (const k in o)] visits: the own properties (those of
    [Object.prototype] are not enumerable). *)
Definition keys (o : t V) : list string := map fst o.

End Ops.

(** The functions every object literal inherits from [Object.prototype],
    each with its [length]. *)
Definition Object_prototype : list (string * nat) :=
  [("constructor", 1); ("__defineGetter__", 2); ("__defineSetter__", 2);
   ("hasOwnProperty", 1); ("__lookupGetter__", 1); ("__lookupSetter__", 1);
   ("isPrototypeOf", 1); ("propertyIsEnumerable", 1); ("toString", 0);
   ("valueOf", 0); ("toLocaleString", 0)]%nat.

(** [o[k]] of an object literal without an own property [k] is not
    [undefined] for these names: it is one of the functions above, or
    [Object.prototype] itself for [__proto__].  Such a value is truthy and
    has no [participants] and no [push]. *)
Definition inherited (k : string) : bool :=
  String.eqb k "__proto__" ||
  existsb (fun p => String.eqb k (fst p)) Object_prototype.

(** [o[k].length] of an inherited value, read as a number ([undefined],
    for [__proto__], compares as not greater than zero). *)
Definition inherited_length (k : string) : nat :=
  match get k Object_prototype with
  | Some n => n
  | None => 0
  end.

End JsObject.

(** ** Data model *)

(** Connection identifier assigned by the transport ([socket.id]). *)
Definition SocketId : Type := string.

(** An instant in milliseconds since the epoch.  The ISO-8601 strings the
    server stores ([new Date().toISOString()]) and reads back
    ([new Date(iso)]) denote the same instant, a non-empty, truthy string. *)
Definition Time : Type := Z.

(** Opaque JSON payload received from a client; an object is carried by its
    text and only its truthiness is ever inspected. *)
Inductive Value : Type :=
  | VUndefined
  | VNull
  | VBool (b : bool)
  | VNumber (n : Z)
  | VString (s : string)
  | VObject (json : string).

Definition nonempty (s : string) : bool :=
  match s with EmptyString => false | String _ _ => true end.

(** JavaScript truthiness, as tested by [!x]. *)
Definition truthy (v : Value) : bool :=
  match v with
  | VUndefined | VNull => false
  | VBool b => b
  | VNumber n => negb (n =? 0)%Z
  | VString s => nonempty s
  | VObject _ => true
  end.

Module Room.
Record t : Type := mk {
  createdAt : Time;
  participants : list SocketId;
  creator : option SocketId;
  connectedAt : option Time
}.
End Room.

Module OfflineMessage.
Record t : Type := mk {
  from : SocketId;
  message : Value;
  timestamp : Time
}.
End OfflineMessage.

Module CallRecord.
(** [duration] is [(endTime - startTime) / 1000], kept as the exact
    rational that the JavaScript number approximates. *)
Record t : Type := mk {
  room : string;
  startTime : Time;
  endTime : Time;
  duration : Q;
  participants : list SocketId
}.
End CallRecord.

Module Stats.
(** The counters are JavaScript numbers that hold non-negative integers; a
    counter that was never written reads as [0] through [x || 0]. *)
Record t : Type := mk {
  totalCalls : N;
  failedCalls : N;
  totalConnections : N
}.
End Stats.

(** [x + 1] on a number that holds the integer [x]: exact below 2^53; from
    there on the sum is rounded to the nearest number there is, the one
    with the even significand when two are as near. *)
Definition increment (x : N) : N :=
  if (x <? 2 ^ 53)%N then (x + 1)%N
  else if ((x <? 2 ^ 54) && N.odd (x / 2))%N then (x + 2)%N
  else x.

Record DB : Type := mkDB {
  callRecords : list CallRecord.t;
  offlineMessages : JsObject.t (list OfflineMessage.t);
  rooms : JsObject.t Room.t;
  stats : Stats.t
}.

(** The database of a fresh process with no [db.json]. *)
Definition emptyDB : DB :=
  mkDB [] [] [] (Stats.mk 0 0 0).

(** The process state: the database, the number of times [new Date()] has
    been evaluated so far, and whether the prototype objects are still as
    the process started them: no handler has assigned a property of
    [Object.prototype] or replaced the prototype of the room table.  While
    [pristine] holds, what a lookup finds through the prototype chain is
    what [JsObject.inherited] tells; what is read through a prototype that
    a handler has written is not followed. *)
Record Server : Type := mkServer {
  db : DB;
  dates : nat;
  pristine : bool
}.

(** ** Transport actions *)

(** [{room, offer}], [{room, answer}] or [{room, candidate}]. *)
Record SignalData : Type := mkSignal {
  data_room : string;
  data_payload : Value
}.

(** Events the server emits.  [ev_pending_inherited name] is a
    [pending_messages] event whose argument is the function inherited under
    [name], not a list of messages. *)
Inductive Event : Type :=
  | ev_pending_messages (messages : list OfflineMessage.t)
  | ev_pending_inherited (name : string)
  | ev_joined (room : string)
  | ev_peer_joined
  | ev_error (message : string)
  | ev_offer (data : SignalData)
  | ev_answer (data : SignalData)
  | ev_ice (data : SignalData)
  | ev_recording_notification (text : string)
  | ev_offline_message (from : SocketId) (message : Value)
  | ev_leave
  | ev_full
  | ev_ready
  | ev_reconnecting
  | ev_reconnected.

(** Addressees: [socket.emit], [io.to(name).emit], [socket.to(name).emit]
    (the group [name] without the sending socket). *)
Inductive Target : Type :=
  | to_socket (id : SocketId)
  | io_to (name : string)
  | socket_to (sender : SocketId) (name : string).

(** Argument of the acknowledgement callback. *)
Inductive Ack : Type :=
  | Success (room : option string)
  | Failure (error : string).

Inductive Action : Type :=
  | Emit (target : Target) (event : Event)
  | Callback (ack : Ack)
  | SocketJoin (socket : SocketId) (room : string)
  | SocketLeave (socket : SocketId) (room : string).

(** Requests a connected client (or the transport) raises on a socket. *)
Inductive Request : Type :=
  | Connection
  | Disconnect (reason : string)
  | SocketError
  | ReconnectAttempt
  | Reconnect
  | Create (room : string)
  | Join (room : string)
  | Offer (data : SignalData)
  | Answer (data : SignalData)
  | Ice (data : SignalData)
  | Ready (room : string)
  | RecordingStarted (room : string)
  | RecordingStopped (room : string)
  | LeaveMessage (room : string) (message : Value)
  | CallConnected (room : string)
  | Leave (room : string).

(** ** Handler monad: state, emitted actions and exceptions *)

Inductive Completion (A : Type) : Type :=
  | Normal (a : A)
  | Thrown (message : string).
Arguments Normal {A} a.
Arguments Thrown {A} message.

Definition JS (A : Type) : Type :=
  Server -> Completion A * Server * list Action.

Definition ret {A} (a : A) : JS A := fun s => (Normal a, s, []).

Definition bind {A B} (m : JS A) (k : A -> JS B) : JS B :=
  fun s =>
    match m s with
    | (Normal a, s1, out1) =>
        match k a s1 with
        | (c, s2, out2) => (c, s2, out1 ++ out2)
        end
    | (Thrown msg, s1, out1) => (Thrown msg, s1, out1)
    end.

Declare Scope js_scope.
Delimit Scope js_scope with js.
Notation "x <- c1 ;; c2" := (bind c1 (fun x => c2))
  (at level 61, c1 at next level, right associativity) : js_scope.
Notation "c1 ;; c2" := (bind c1 (fun _ => c2))
  (at level 61, right associativity) : js_scope.
Open Scope js_scope.

(** [throw new Error(msg)] *)
Definition throw {A} (msg : string) : JS A := fun s => (Thrown msg, s, []).

(** [try { body } catch (err) { handler(err.message) }] *)
Definition try_catch (body : JS unit) (handler : string -> JS unit) : JS unit :=
  fun s =>
    match body s with
    | (Normal tt, s1, out1) => (Normal tt, s1, out1)
    | (Thrown msg, s1, out1) =>
        match handler msg s1 with
        | (c, s2, out2) => (c, s2, out1 ++ out2)
        end
    end.

Definition when (b : bool) (m : JS unit) : JS unit :=
  if b then m else ret tt.

Definition act (a : Action) : JS unit := fun s => (Normal tt, s, [a]).

Definition get_db : JS DB := fun s => (Normal (db s), s, []).

Definition put_db (d : DB) : JS unit :=
  fun s => (Normal tt, mkServer d (dates s) (pristine s), []).

Definition modify_db (f : DB -> DB) : JS unit :=
  d <- get_db ;; put_db (f d).

(** An assignment that lands on a prototype object. *)
Definition write_prototype : JS unit :=
  fun s => (Normal tt, mkServer (db s) (dates s) false, []).

Definition emit (t : Target) (e : Event) : JS unit := act (Emit t e).
Definition callback (a : Ack) : JS unit := act (Callback a).

(** Run a handler to completion: the new state and what it sent.  An
    exception that escapes every [try] leaves the effects made so far. *)
Definition exec (m : JS unit) (s : Server) : Server * list Action :=
  match m s with (_, s', out) => (s', out) end.

(** Updates of the fields of [db]. *)
Definition set_rooms (r : JsObject.t Room.t) (d : DB) : DB :=
  mkDB (callRecords d) (offlineMessages d) r (stats d).
Definition set_offlineMessages (m : JsObject.t (list OfflineMessage.t)) (d : DB) : DB :=
  mkDB (callRecords d) m (rooms d) (stats d).
Definition set_callRecords (c : list CallRecord.t) (d : DB) : DB :=
  mkDB c (offlineMessages d) (rooms d) (stats d).
Definition set_stats (st : Stats.t) (d : DB) : DB :=
  mkDB (callRecords d) (offlineMessages d) (rooms d) st.

(** The message of the [TypeError] raised by [undefined.name], in the
    wording of V8. *)
Definition TypeError_reading (name : string) : string :=
  "Cannot read properties of undefined (reading '" ++ name ++ "')".

(** The message of the [TypeError] raised by [db.offlineMessages[room].push(...)]
    when the value has no [push]. *)
Definition TypeError_push : string :=
  "db.offlineMessages[room].push is not a function".

(** Array helpers: [indexOf], [splice(index, 1)], [includes]. *)
Fixpoint indexOf (x : SocketId) (l : list SocketId) : option nat :=
  match l with
  | [] => None
  | y :: l' =>
      if String.eqb y x then Some 0%nat
      else match indexOf x l' with
           | Some i => Some (S i)
           | None => None
           end
  end.

Fixpoint splice1 (index : nat) (l : list SocketId) : list SocketId :=
  match l, index with
  | [], _ => []
  | _ :: l', O => l'
  | y :: l', S i => y :: splice1 i l'
  end.

Definition includes (x : SocketId) (l : list SocketId) : bool :=
  existsb (String.eqb x) l.

(** ** The server with acknowledgements (the [io.on('connection')] handlers)

    [console.log] and [saveDB] (a write of [db] to [db.json] that the handlers
    never read back) are left out.  A request carries a room code that is a
    string, a payload that can be destructured and an acknowledgement
    function; a request that lacks one of them is not modelled.

    [db.rooms[room]] and [db.offlineMessages[room]] are plain property
    reads: for a name of [JsObject.inherited] that is not an own property
    they return a function (or [Object.prototype]), which is truthy. *)
Module Signaling.
Section Handlers.

(** [clock n] is the instant returned by the [n]-th evaluation of
    [new Date()] in the process. *)
Variable clock : nat -> Time.

Definition new_Date : JS Time :=
  fun s => (Normal (clock (dates s)), mkServer (db s) (S (dates s)) (pristine s), []).

(** [db.rooms[room].f = ...] on a registered room. *)
Definition update_room (room : string) (f : Room.t -> Room.t) : JS unit :=
  modify_db (fun d =>
    match JsObject.get room (rooms d) with
    | Some roomObj => set_rooms (JsObject.set room (f roomObj) (rooms d)) d
    | None => d
    end).

Definition set_participants (l : list SocketId) (r : Room.t) : Room.t :=
  Room.mk (Room.createdAt r) l (Room.creator r) (Room.connectedAt r).

Definition set_connectedAt (t : Time) (r : Room.t) : Room.t :=
  Room.mk (Room.createdAt r) (Room.participants r) (Room.creator r) (Some t).

Definition is_set (o : option Time) : bool :=
  match o with Some _ => true | None => false end.

(** Whether the socket is listed in a registered room. *)
Definition is_participant (d : DB) (room : string) (socketId : SocketId) : bool :=
  match JsObject.get room (rooms d) with
  | Some roomObj => includes socketId (Room.participants roomObj)
  | None => false
  end.

(** [!db.rooms[room]?.participants.includes(socket.id)]: [?.] guards
    against a missing entry only; under an inherited name [participants]
    is [undefined] and [.includes] raises. *)
Definition not_participant (room : string) (socketId : SocketId) : JS bool :=
  d <- get_db ;;
  if negb (JsObject.has room (rooms d)) && JsObject.inherited room
  then throw (TypeError_reading "includes")
  else ret (negb (is_participant d room socketId)).

(** [function finalizeCallRecord(room)] *)
Definition finalizeCallRecord (room : string) : JS unit :=
  d <- get_db ;;
  match JsObject.get room (rooms d) with
  | Some roomObj =>
      match Room.connectedAt roomObj with
      | Some startTime =>
          endTime <- new_Date ;;
          let duration := Qmake (endTime - startTime) 1000 in
          modify_db (fun d => set_callRecords
            (callRecords d ++
             [CallRecord.mk room startTime endTime duration
                (Room.participants roomObj)]) d) ;;
          modify_db (fun d => set_rooms (JsObject.delete room (rooms d)) d)
      | None => ret tt
      end
  | None => ret tt
  end.

(** The body shared by [cleanupRoom] and the loop of
    [cleanupSocketRooms]: remove the socket's first occurrence and
    finalize the room when it is empty and was connected. *)
Definition remove_participant (room : string) (socketId : SocketId)
    (notify : JS unit) : JS unit :=
  d <- get_db ;;
  match JsObject.get room (rooms d) with
  | Some roomObj =>
      match indexOf socketId (Room.participants roomObj) with
      | Some index =>
          let rest := splice1 index (Room.participants roomObj) in
          update_room room (set_participants rest) ;;
          notify ;;
          when ((List.length rest =? 0)%nat && is_set (Room.connectedAt roomObj))
            (finalizeCallRecord room)
      | None => ret tt
      end
  | None => ret tt
  end.

(** [function cleanupRoom(room, socketId)]: under an inherited name
    [roomObj] is truthy and [roomObj.participants] is [undefined], so that
    [.indexOf] raises. *)
Definition cleanupRoom (room : string) (socketId : SocketId) : JS unit :=
  d <- get_db ;;
  when (negb (JsObject.has room (rooms d)) && JsObject.inherited room)
    (throw (TypeError_reading "indexOf")) ;;
  remove_participant room socketId (ret tt).

(** [for (const room in db.rooms) { ... }]: the keys are those of the
    table when the loop starts; a key deleted meanwhile is skipped. *)
Fixpoint for_in (ks : list string) (body : string -> JS unit) : JS unit :=
  match ks with
  | [] => ret tt
  | k :: ks' => body k ;; for_in ks' body
  end.

(** [function cleanupSocketRooms(socketId)] *)
Definition cleanupSocketRooms (socketId : SocketId) : JS unit :=
  d <- get_db ;;
  for_in (JsObject.keys (rooms d)) (fun room =>
    remove_participant room socketId (emit (io_to room) ev_leave)).

(** [socket.on('create', (room, callback) => ...)] *)
Definition on_create (socket : SocketId) (room : string) : JS unit :=
  try_catch
    (when (negb (nonempty room) || (String.length room <? 4)%nat)
       (throw "Invalid room code") ;;
     d <- get_db ;;
     when (JsObject.has room (rooms d) || JsObject.inherited room)
       (throw "Room already exists") ;;
     act (SocketJoin socket room) ;;
     now <- new_Date ;;
     modify_db (fun d => set_rooms
       (JsObject.set room (Room.mk now [socket] (Some socket) None) (rooms d)) d) ;;
     callback (Success (Some room)))
    (fun message => callback (Failure message)).

(** [socket.on('join', (room, callback) => ...)]: an inherited name passes
    [!db.rooms[room]] and fails at [roomObj.participants.length]. *)
Definition on_join (socket : SocketId) (room : string) : JS unit :=
  try_catch
    (when (negb (nonempty room)) (throw "Invalid room code") ;;
     d <- get_db ;;
     match JsObject.get room (rooms d) with
     | None =>
         if JsObject.inherited room then throw (TypeError_reading "length")
         else throw "Room does not exist"
     | Some roomObj =>
         when (2 <=? List.length (Room.participants roomObj))%nat
           (throw "Room is full") ;;
         act (SocketJoin socket room) ;;
         let participants := Room.participants roomObj ++ [socket] in
         update_room room (set_participants participants) ;;
         d <- get_db ;;
         match JsObject.get room (offlineMessages d) with
         | Some (m :: ms) =>
             emit (to_socket socket) (ev_pending_messages (m :: ms)) ;;
             modify_db (fun d => set_offlineMessages
               (JsObject.delete room (offlineMessages d)) d)
         | Some [] => ret tt
         | None =>
             when (JsObject.inherited room &&
                   (0 <? JsObject.inherited_length room)%nat)
               (emit (to_socket socket) (ev_pending_inherited room))
         end ;;
         emit (io_to room) (ev_joined room) ;;
         when (List.length participants =? 2)%nat
           (match participants with
            | first :: _ => emit (io_to first) ev_peer_joined
            | [] => ret tt
            end ;;
            modify_db (fun d => set_stats
              (Stats.mk (increment (Stats.totalCalls (stats d)))
                 (Stats.failedCalls (stats d))
                 (Stats.totalConnections (stats d))) d)) ;;
         callback (Success (Some room))
     end)
    (fun message =>
       callback (Failure message) ;;
       emit (to_socket socket) (ev_error message)).

(** The three negotiation payloads. *)
Inductive SignalKind : Type := offer | answer | ice.

Definition invalid_data (k : SignalKind) : string :=
  match k with
  | offer => "Invalid offer data"
  | answer => "Invalid answer data"
  | ice => "Invalid ICE candidate data"
  end.

Definition signal_event (k : SignalKind) (data : SignalData) : Event :=
  match k with
  | offer => ev_offer data
  | answer => ev_answer data
  | ice => ev_ice data
  end.

(** [socket.on('offer' | 'answer' | 'ice', (data, callback) => ...)]:
    the three handlers differ in the payload field, the message and the
    event name only. *)
Definition on_signal (k : SignalKind) (socket : SocketId) (data : SignalData)
    : JS unit :=
  try_catch
    (when (negb (nonempty (data_room data)) || negb (truthy (data_payload data)))
       (throw (invalid_data k)) ;;
     outsider <- not_participant (data_room data) socket ;;
     when outsider (throw "Not a room participant") ;;
     emit (socket_to socket (data_room data)) (signal_event k data) ;;
     callback (Success None))
    (fun message => callback (Failure message)).

(** [socket.on('recording_started' | 'recording_stopped', ...)] *)
Definition on_recording (text : string) (socket : SocketId) (room : string)
    : JS unit :=
  try_catch
    (outsider <- not_participant room socket ;;
     when outsider (throw "Not a room participant") ;;
     emit (socket_to socket room) (ev_recording_notification text) ;;
     callback (Success None))
    (fun message => callback (Failure message)).

(** [socket.on('leave_message', ({ room, message }, callback) => ...)]:
    an inherited name passes [!db.rooms[room]] and
    [!db.offlineMessages[room]]; the call of [push] then evaluates its
    argument, reading the clock, and raises because the value has no
    [push]. *)
Definition on_leave_message (socket : SocketId) (room : string)
    (message : Value) : JS unit :=
  try_catch
    (when (negb (nonempty room) || negb (truthy message))
       (throw "Invalid message data") ;;
     d <- get_db ;;
     when (negb (JsObject.has room (rooms d) || JsObject.inherited room))
       (throw "Room does not exist") ;;
     when (negb (JsObject.has room (offlineMessages d) || JsObject.inherited room))
       (modify_db (fun d => set_offlineMessages
          (JsObject.set room [] (offlineMessages d)) d)) ;;
     now <- new_Date ;;
     d <- get_db ;;
     match JsObject.get room (offlineMessages d) with
     | Some queue =>
         put_db (set_offlineMessages
           (JsObject.set room (queue ++ [OfflineMessage.mk socket message now])
              (offlineMessages d)) d)
     | None => throw TypeError_push
     end ;;
     emit (socket_to socket room) (ev_offline_message socket message) ;;
     callback (Success None))
    (fun message => callback (Failure message)).

(** [socket.on('call_connected', (room, callback) => ...)]: under an
    inherited name [roomObj] is truthy and [roomObj.connectedAt = ...]
    assigns a property of the inherited function, or of [Object.prototype]
    when the name is [__proto__]; the room table is not touched. *)
Definition on_call_connected (socket : SocketId) (room : string) : JS unit :=
  try_catch
    (d <- get_db ;;
     match JsObject.get room (rooms d) with
     | Some roomObj =>
         now <- new_Date ;;
         update_room room (set_connectedAt now) ;;
         callback (Success None)
     | None =>
         if JsObject.inherited room then
           now <- new_Date ;;
           when (String.eqb room "__proto__") write_prototype ;;
           callback (Success None)
         else throw "Room not found"
     end)
    (fun message => callback (Failure message)).

(** [socket.on('leave', (room, callback) => ...)] *)
Definition on_leave (socket : SocketId) (room : string) : JS unit :=
  try_catch
    (act (SocketLeave socket room) ;;
     cleanupRoom room socket ;;
     emit (socket_to socket room) ev_leave ;;
     callback (Success None))
    (fun message => callback (Failure message)).

(** [socket.on('disconnect', (reason) => ...)] *)
Definition on_disconnect (socket : SocketId) : JS unit :=
  cleanupSocketRooms socket.

(** [io.on('connection', socket => ...)]: the counter and
    [connectionTime]. *)
Definition on_connection (socket : SocketId) : JS unit :=
  modify_db (fun d => set_stats
    (Stats.mk (Stats.totalCalls (stats d)) (Stats.failedCalls (stats d))
       (increment (Stats.totalConnections (stats d)))) d) ;;
  connectionTime <- new_Date ;;
  ret tt.

(** Dispatch of one request of [socket]; an event without a listener
    ([ready], [reconnect_attempt], [reconnect]) does nothing. *)
Definition handle (socket : SocketId) (r : Request) : JS unit :=
  match r with
  | Connection => on_connection socket
  | Disconnect _ => on_disconnect socket
  | SocketError | ReconnectAttempt | Reconnect => ret tt
  | Create room => on_create socket room
  | Join room => on_join socket room
  | Offer data => on_signal offer socket data
  | Answer data => on_signal answer socket data
  | Ice data => on_signal ice socket data
  | Ready _ => ret tt
  | RecordingStarted room => on_recording "Recording has started" socket room
  | RecordingStopped room => on_recording "Recording has stopped" socket room
  | LeaveMessage room message => on_leave_message socket room message
  | CallConnected room => on_call_connected socket room
  | Leave room => on_leave socket room
  end.

Definition step (s : Server) (i : SocketId * Request) : Server * list Action :=
  exec (handle (fst i) (snd i)) s.

(** The server after a sequence of requests, and everything it sent. *)
Fixpoint run (s : Server) (trace : list (SocketId * Request))
    : Server * list Action :=
  match trace with
  | [] => (s, [])
  | i :: trace' =>
      let (s1, out1) := step s i in
      let (s2, out2) := run s1 trace' in
      (s2, out1 ++ out2)
  end.

End Handlers.
End Signaling.

(** ** The server of [server.js]

    The same room table and accounting without acknowledgements, without
    validation of room codes or of membership and without [try]: an
    exception leaves the handler. *)
Module Legacy.
Section Handlers.

Variable clock : nat -> Time.

(** [socket.on('create', room => ...)]: the assignment
    [db.rooms[room] = {...}] makes or replaces an own property, except
    under the name [__proto__], where (without an own property of that
    name) it replaces the prototype of the table and adds no entry. *)
Definition on_create (socket : SocketId) (room : string) : JS unit :=
  act (SocketJoin socket room) ;;
  now <- Signaling.new_Date clock ;;
  d <- get_db ;;
  if negb (JsObject.has room (rooms d)) && String.eqb room "__proto__"
  then write_prototype
  else put_db (set_rooms
         (JsObject.set room (Room.mk now [socket] None None) (rooms d)) d).

(** [socket.on('join', room => ...)]: an inherited name passes
    [!db.rooms[room]] and fails at [roomObj.participants.length]. *)
Definition on_join (socket : SocketId) (room : string) : JS unit :=
  d <- get_db ;;
  match JsObject.get room (rooms d) with
  | None =>
      if JsObject.inherited room then throw (TypeError_reading "length")
      else emit (to_socket socket) (ev_error "Room does not exist")
  | Some roomObj =>
      if (2 <=? List.length (Room.participants roomObj))%nat
      then emit (to_socket socket) ev_full
      else
        act (SocketJoin socket room) ;;
        Signaling.update_room room
          (Signaling.set_participants (Room.participants roomObj ++ [socket])) ;;
        d <- get_db ;;
        match JsObject.get room (offlineMessages d) with
        | Some (m :: ms) =>
            emit (to_socket socket) (ev_pending_messages (m :: ms)) ;;
            modify_db (fun d => set_offlineMessages
              (JsObject.delete room (offlineMessages d)) d)
        | Some [] => ret tt
        | None =>
            when (JsObject.inherited room &&
                  (0 <? JsObject.inherited_length room)%nat)
              (emit (to_socket socket) (ev_pending_inherited room))
        end ;;
        emit (to_socket socket) (ev_joined room) ;;
        emit (socket_to socket room) (ev_joined room)
  end.

(** [socket.on('offer' | 'answer' | 'ice', data => ...)] *)
Definition on_signal (k : Signaling.SignalKind) (socket : SocketId)
    (data : SignalData) : JS unit :=
  emit (socket_to socket (data_room data)) (Signaling.signal_event k data).

(** [socket.on('leave_message', ({ room, message }) => ...)]: under an
    inherited name the value found has no [push]. *)
Definition on_leave_message (socket : SocketId) (room : string)
    (message : Value) : JS unit :=
  d <- get_db ;;
  when (negb (JsObject.has room (offlineMessages d) || JsObject.inherited room))
    (modify_db (fun d => set_offlineMessages
       (JsObject.set room [] (offlineMessages d)) d)) ;;
  now <- Signaling.new_Date clock ;;
  d <- get_db ;;
  match JsObject.get room (offlineMessages d) with
  | Some queue =>
      put_db (set_offlineMessages
        (JsObject.set room (queue ++ [OfflineMessage.mk socket message now])
           (offlineMessages d)) d)
  | None => throw TypeError_push
  end ;;
  emit (socket_to socket room) (ev_offline_message socket message).

(** [socket.on('call_connected', room => ...)]; an inherited name is
    handled as by the server with acknowledgements. *)
Definition on_call_connected (socket : SocketId) (room : string) : JS unit :=
  d <- get_db ;;
  match JsObject.get room (rooms d) with
  | Some roomObj =>
      now <- Signaling.new_Date clock ;;
      Signaling.update_room room (Signaling.set_connectedAt now)
  | None =>
      when (JsObject.inherited room)
        (now <- Signaling.new_Date clock ;;
         when (String.eqb room "__proto__") write_prototype)
  end.

(** [socket.on('disconnect', () => ...)]: the loop records the call
    inline, with the statements of [finalizeCallRecord]. *)
Definition on_disconnect (socket : SocketId) : JS unit :=
  d <- get_db ;;
  Signaling.for_in (JsObject.keys (rooms d)) (fun room =>
    Signaling.remove_participant clock room socket
      (emit (socket_to socket room) ev_leave)).

(** [socket.on('leave', room => ...)]: under an inherited name [roomObj]
    is truthy and [roomObj.participants.indexOf] raises. *)
Definition on_leave (socket : SocketId) (room : string) : JS unit :=
  act (SocketLeave socket room) ;;
  d <- get_db ;;
  when (negb (JsObject.has room (rooms d)) && JsObject.inherited room)
    (throw (TypeError_reading "indexOf")) ;;
  Signaling.remove_participant clock room socket (ret tt) ;;
  emit (socket_to socket room) ev_leave.

Definition handle (socket : SocketId) (r : Request) : JS unit :=
  match r with
  | Connection => connectionTime <- Signaling.new_Date clock ;; ret tt
  | Disconnect _ => on_disconnect socket
  | SocketError => ret tt
  | ReconnectAttempt => emit (to_socket socket) ev_reconnecting
  | Reconnect => emit (to_socket socket) ev_reconnected
  | Create room => on_create socket room
  | Join room => on_join socket room
  | Offer data => on_signal Signaling.offer socket data
  | Answer data => on_signal Signaling.answer socket data
  | Ice data => on_signal Signaling.ice socket data
  | Ready room => emit (socket_to socket room) ev_ready
  | RecordingStarted room =>
      emit (socket_to socket room)
        (ev_recording_notification "Recording has started")
  | RecordingStopped room =>
      emit (socket_to socket room)
        (ev_recording_notification "Recording has stopped")
  | LeaveMessage room message => on_leave_message socket room message
  | CallConnected room => on_call_connected socket room
  | Leave room => on_leave socket room
  end.

Definition step (s : Server) (i : SocketId * Request) : Server * list Action :=
  exec (handle (fst i) (snd i)) s.

Fixpoint run (s : Server) (trace : list (SocketId * Request))
    : Server * list Action :=
  match trace with
  | [] => (s, [])
  | i :: trace' =>
      let (s1, out1) := step s i in
      let (s2, out2) := run s1 trace' in
      (s2, out1 ++ out2)
  end.

End Handlers.
End Legacy.

(** ** Observations on states and on what was sent *)

(** The invariant of the room table: no registered room lists more than two
    participants (a length is never negative). *)
Definition bounded (s : Server) : Prop :=
  forall room roomObj,
    JsObject.get room (rooms (db s)) = Some roomObj ->
    (List.length (Room.participants roomObj) <= 2)%nat.

(** The pending offline messages of a room, [db.offlineMessages[room] || []]. *)
Definition queue (s : Server) (room : string) : list OfflineMessage.t :=
  match JsObject.get room (offlineMessages (db s)) with
  | Some q => q
  | None => []
  end.


(** The addressee of every [peer_joined] event sent. *)
Fixpoint peer_joined_targets (out : list Action) : list Target :=
  match out with
  | [] => []
  | Emit t ev_peer_joined :: out' => t :: peer_joined_targets out'
  | _ :: out' => peer_joined_targets out'
  end.

(** Every event sent to a group or to a socket other than the requesting
    [socket] itself. *)
Fixpoint forwarded (socket : SocketId) (out : list Action)
    : list (Target * Event) :=
  match out with
  | [] => []
  | Emit (to_socket id) e :: out' =>
      if String.eqb id socket then forwarded socket out'
      else (to_socket id, e) :: forwarded socket out'
  | Emit t e :: out' => (t, e) :: forwarded socket out'
  | _ :: out' => forwarded socket out'
  end.

(** What a successful join sends the joining socket from the room's queue. *)
Definition delivery (s : Server) (socket : SocketId) (room : string)
    : list Action :=
  match queue s room with
  | [] =>
      if negb (JsObject.has room (offlineMessages (db s))) &&
         (JsObject.inherited room && (0 <? JsObject.inherited_length room)%nat)
      then [Emit (to_socket socket) (ev_pending_inherited room)]
      else []
  | m :: ms => [Emit (to_socket socket) (ev_pending_messages (m :: ms))]
  end.

(** The request was acknowledged with [{success: true}]. *)
Definition succeeded (out : list Action) : bool :=
  existsb (fun a => match a with Callback (Success _) => true | _ => false end) out.


(** A clock ticking once a second, and the scenario of two clients that
    meet in room ABCD. *)
Definition sample_clock (n : nat) : Time := (1000 * Z.of_nat n)%Z.

Definition fresh : Server := mkServer emptyDB 0 true.

Definition scenario : list (SocketId * Request) :=
  [("A", Create "ABCD"); ("B", Join "ABCD"); ("A", CallConnected "ABCD");
   ("B", Disconnect "transport close")].

(** ** Removal of a participant in closed form *)
Section Removal.

Variable clock : nat -> Time.

(** The state after [cleanupRoom(room, socketId)], or after one turn of
    the loop of [cleanupSocketRooms], as a function of the state before. *)
Definition removal (room : string) (socketId : SocketId) (s : Server) : Server :=
  match JsObject.get room (rooms (db s)) with
  | Some roomObj =>
      match indexOf socketId (Room.participants roomObj) with
      | Some index =>
          let rest := splice1 index (Room.participants roomObj) in
          let table :=
            JsObject.set room (Signaling.set_participants rest roomObj)
              (rooms (db s)) in
          match rest, Room.connectedAt roomObj with
          | [], Some startTime =>
              let endTime := clock (dates s) in
              mkServer
                (mkDB (callRecords (db s) ++
                         [CallRecord.mk room startTime endTime
                            (Qmake (endTime - startTime) 1000) []])
                      (offlineMessages (db s))
                      (JsObject.delete room table)
                      (stats (db s)))
                (S (dates s)) (pristine s)
          | _, _ => mkServer (set_rooms table (db s)) (dates s) (pristine s)
          end
      | None => s
      end
  | None => s
  end.

(** Whether the socket is listed in the room, so that the removal
    happens and its notification is sent. *)
Definition removes (room : string) (socketId : SocketId) (s : Server) : bool :=
  match JsObject.get room (rooms (db s)) with
  | Some roomObj =>
      match indexOf socketId (Room.participants roomObj) with
      | Some _ => true
      | None => false
      end
  | None => false
  end.

(** The loop of [cleanupSocketRooms] over the keys [ks]. *)
Fixpoint sweep (socketId : SocketId) (ks : list string) (s : Server) : Server :=
  match ks with
  | [] => s
  | k :: ks' => sweep socketId ks' (removal k socketId s)
  end.

Fixpoint sweep_out (notify : string -> list Action) (socketId : SocketId)
    (ks : list string) (s : Server) : list Action :=
  match ks with
  | [] => []
  | k :: ks' =>
      (if removes k socketId s then notify k else []) ++
      sweep_out notify socketId ks' (removal k socketId s)
  end.

(** A record written by call accounting while the server went from [s]
    to [s']: its room was registered and connected in [s], its end is a
    reading of the clock taken on the way, and its snapshot is empty. *)
Definition accounted (s s' : Server) (rec : CallRecord.t) : Prop :=
  exists roomObj n,
    JsObject.get (CallRecord.room rec) (rooms (db s)) = Some roomObj /\
    Room.connectedAt roomObj = Some (CallRecord.startTime rec) /\
    (dates s <= n < dates s')%nat /\
    CallRecord.endTime rec = clock n /\
    CallRecord.duration rec =
      Qmake (CallRecord.endTime rec - CallRecord.startTime rec) 1000 /\
    CallRecord.participants rec = [].

(** What removals can do to a server. *)
Record settles (s s' : Server) : Prop := mkSettles {
  st_rooms : forall k r',
    JsObject.get k (rooms (db s')) = Some r' ->
    exists r, JsObject.get k (rooms (db s)) = Some r /\
      Room.connectedAt r' = Room.connectedAt r /\
      (List.length (Room.participants r') <=
       List.length (Room.participants r))%nat;
  st_queues : offlineMessages (db s') = offlineMessages (db s);
  st_stats : stats (db s') = stats (db s);
  st_dates : (dates s <= dates s')%nat;
  st_records : exists new,
    callRecords (db s') = callRecords (db s) ++ new /\
    Forall (accounted s s') new
}.

End Removal.

(** ** Expected notifications and sample runs *)

(** The [peer_joined] event a request is due: a [join] of a registered room
    that lists exactly one participant, addressed to that participant. *)
Definition peer_joined_due (s : Server) (r : Request) : list Target :=
  match r with
  | Join room =>
      if nonempty room then
        match JsObject.get room (rooms (db s)) with
        | Some roomObj =>
            match Room.participants roomObj with
            | [first] => [io_to first]
            | _ => []
            end
        | None => []
        end
      else []
  | _ => []
  end.

(** Two clients joining room ABCD in turn beside its creator. *)
Definition rejoin : list (SocketId * Request) :=
  [("A", Create "ABCD"); ("B", Join "ABCD"); ("B", Leave "ABCD");
   ("C", Join "ABCD")].

(** Room ABCD once its creator A and B, the first to join it, have both
    left. *)
Definition departed : list (SocketId * Request) :=
  [("A", Create "ABCD"); ("B", Join "ABCD"); ("A", Leave "ABCD");
   ("B", Leave "ABCD")].

(** The server once A and B have met in room ABCD, A has signalled
    [call_connected] and B has gone. *)
Definition connected_pair : Server :=
  fst (Signaling.run sample_clock fresh scenario).


(** Every registered room code has at least four characters. *)
Definition codes_valid (s : Server) : Prop :=
  forall room, JsObject.has room (rooms (db s)) = true ->
    (4 <= String.length room)%nat.

(** ** Further observations *)


(** The request was acknowledged with [{success: false}]. *)
Definition refused (out : list Action) : bool :=
  existsb (fun a => match a with Callback (Failure _) => true | _ => false end) out.

(** A [leave] event sent to the group of a room. *)
Definition is_leave_notice (a : Action) : Prop :=
  exists room, a = Emit (io_to room) ev_leave.

(** The connections opened along a trace. *)
Fixpoint count_connections (trace : list (SocketId * Request)) : nat :=
  match trace with
  | [] => 0
  | (_, Connection) :: trace' => S (count_connections trace')
  | _ :: trace' => count_connections trace'
  end.

(** A record of call accounting written between two clock readings. *)
Definition well_formed_record (clock : nat -> Time) (first last : nat)
    (rec : CallRecord.t) : Prop :=
  CallRecord.participants rec = [] /\
  CallRecord.duration rec =
    Qmake (CallRecord.endTime rec - CallRecord.startTime rec) 1000 /\
  exists n, (first <= n < last)%nat /\ CallRecord.endTime rec = clock n.

(** No code names two rooms: the table is one object. *)
Definition keys_unique (s : Server) : Prop :=
  NoDup (JsObject.keys (rooms (db s))).

(** ** The read API *)

(** [db.callRecords.slice(-n)] *)
Definition slice_last {A : Type} (n : nat) (l : list A) : list A :=
  skipn (List.length l - n) l.

(** The records [GET /api/call-history] returns:
    [db.callRecords.slice(-20).reverse()]. *)
Definition call_history (d : DB) : list CallRecord.t :=
  rev (slice_last 20 (callRecords d)).

(** ** Persistence

    [function saveDB()] of the server with acknowledgements.
    [writes_ok n] tells whether the call of [fs.writeFileSync] made after
    [n] failures returns normally; a failed write is retried a second
    later.  The result is the number of failed writes and whether the
    database was written. *)
Section SaveDB.
Variable writes_ok : nat -> bool.

Definition maxAttempts : nat := 3.

(** [function attemptSave()]; [attempts] counts the failed writes. *)
Function attemptSave (attempts : nat) {measure (fun a => (maxAttempts - a)%nat) attempts}
    : nat * bool :=
  if writes_ok attempts then (attempts, true)
  else if (S attempts <? maxAttempts)%nat then attemptSave (S attempts)
       else (S attempts, false).
Proof.
  intros attempts _ H. apply Nat.ltb_lt in H. unfold maxAttempts in *. lia.
Defined.

Definition saveDB : nat * bool := attemptSave 0.
End SaveDB.

(** ** The accounting of [server.js], as written

    The disconnect and leave handlers of [server.js] do not call
    [finalizeCallRecord]: they carry its statements inline. *)
Section Inline.
Variable clock : nat -> Time.

(** The statements under [if (index !== -1)] of both handlers; [notify] is
    the [socket.to(room).emit('leave')] that the disconnect handler places
    between the removal and the accounting. *)
Definition remove_participant_inline (room : string) (socketId : SocketId)
    (notify : JS unit) : JS unit :=
  d <- get_db ;;
  match JsObject.get room (rooms d) with
  | Some roomObj =>
      match indexOf socketId (Room.participants roomObj) with
      | Some index =>
          let rest := splice1 index (Room.participants roomObj) in
          Signaling.update_room room (Signaling.set_participants rest) ;;
          notify ;;
          when ((List.length rest =? 0)%nat && Signaling.is_set (Room.connectedAt roomObj))
            match Room.connectedAt roomObj with
            | Some startTime =>
                endTime <- Signaling.new_Date clock ;;
                let duration := Qmake (endTime - startTime) 1000 in
                modify_db (fun d => set_callRecords
                  (callRecords d ++
                   [CallRecord.mk room startTime endTime duration rest]) d) ;;
                modify_db (fun d => set_rooms (JsObject.delete room (rooms d)) d)
            | None => ret tt
            end
      | None => ret tt
      end
  | None => ret tt
  end.

(** [socket.on('disconnect', () => ...)] of [server.js] *)
Definition on_disconnect_inline (socket : SocketId) : JS unit :=
  d <- get_db ;;
  Signaling.for_in (JsObject.keys (rooms d)) (fun room =>
    remove_participant_inline room socket (emit (socket_to socket room) ev_leave)).

(** [socket.on('leave', room => ...)] of [server.js]: under an inherited
    name [roomObj] is truthy and [roomObj.participants.indexOf] raises. *)
Definition on_leave_inline (socket : SocketId) (room : string) : JS unit :=
  act (SocketLeave socket room) ;;
  d <- get_db ;;
  when (negb (JsObject.has room (rooms d)) && JsObject.inherited room)
    (throw (TypeError_reading "indexOf")) ;;
  remove_participant_inline room socket (ret tt) ;;
  emit (socket_to socket room) ev_leave.

End Inline.

(** ** Facts about property tables *)
Module JsObjectFacts.
Import JsObject.

Section Facts.
Variable V : Type.
Implicit Types (o : JsObject.t V) (k : string) (v : V).

Lemma get_replace_same k v o :
  has k o = true -> get k (replace k v o) = Some v.
Proof.
  unfold has. induction o as [|[k' v'] o IH]; simpl; [discriminate|].
  destruct (String.eqb k k') eqn:E; simpl; rewrite E; auto.
Qed.

Lemma get_replace_other k k' v o :
  k' <> k -> get k' (replace k v o) = get k' o.
Proof.
  intros Hne. induction o as [|[k0 v0] o IH]; simpl; auto.
  destruct (String.eqb k k0) eqn:E; simpl.
  - apply String.eqb_eq in E. subst k0.
    apply String.eqb_neq in Hne. rewrite Hne. reflexivity.
  - rewrite IH. reflexivity.
Qed.

Lemma get_insert_index_same n k v o :
  get k (insert_index n k v o) = Some v \/ has k o = true.
Proof.
  unfold has. induction o as [|[k0 v0] o IH]; simpl.
  - rewrite String.eqb_refl. auto.
  - destruct (array_index k0) as [m|].
    + destruct (m <? n)%N; simpl.
      * destruct (String.eqb k k0); auto.
      * rewrite String.eqb_refl. auto.
    + simpl. rewrite String.eqb_refl. auto.
Qed.

Lemma get_insert_index_other n k k' v o :
  k' <> k -> get k' (insert_index n k v o) = get k' o.
Proof.
  intros Hne. apply String.eqb_neq in Hne.
  induction o as [|[k0 v0] o IH]; simpl.
  - rewrite Hne. reflexivity.
  - destruct (array_index k0) as [m|].
    + destruct (m <? n)%N; simpl.
      * rewrite IH. reflexivity.
      * rewrite Hne. reflexivity.
    + simpl. rewrite Hne. reflexivity.
Qed.

Lemma get_app k o1 o2 :
  get k (o1 ++ o2) = match get k o1 with Some v => Some v | None => get k o2 end.
Proof.
  induction o1 as [|[k0 v0] o1 IH]; simpl; auto.
  destruct (String.eqb k k0); auto.
Qed.

Lemma get_set_same k v o : get k (set k v o) = Some v.
Proof.
  unfold set. destruct (has k o) eqn:H.
  - apply get_replace_same; assumption.
  - destruct (array_index k) as [n|].
    + destruct (get_insert_index_same n k v o) as [E|E]; congruence.
    + rewrite get_app. unfold has in H.
      destruct (get k o); [discriminate|].
      simpl. rewrite String.eqb_refl. reflexivity.
Qed.

Lemma get_set_other k k' v o : k' <> k -> get k' (set k v o) = get k' o.
Proof.
  intros Hne. unfold set. destruct (has k o).
  - apply get_replace_other; assumption.
  - destruct (array_index k) as [n|].
    + apply get_insert_index_other; assumption.
    + rewrite get_app. simpl.
      apply String.eqb_neq in Hne. rewrite Hne.
      destruct (get k' o); reflexivity.
Qed.

Lemma get_delete_same k o : get k (delete k o) = None.
Proof.
  unfold delete. induction o as [|[k0 v0] o IH]; simpl; auto.
  destruct (String.eqb k k0) eqn:E; simpl; auto.
  rewrite E. assumption.
Qed.

Lemma get_delete_other k k' o : k' <> k -> get k' (delete k o) = get k' o.
Proof.
  intros Hne. unfold delete.
  induction o as [|[k0 v0] o IH]; simpl; auto.
  destruct (String.eqb k k0) eqn:E; simpl.
  - apply String.eqb_eq in E. subst k0.
    apply String.eqb_neq in Hne. rewrite Hne. assumption.
  - rewrite IH. reflexivity.
Qed.

Lemma get_in_keys k v o : get k o = Some v -> In k (keys o).
Proof.
  unfold keys. induction o as [|[k0 v0] o IH]; simpl; [discriminate|].
  destruct (String.eqb k k0) eqn:E.
  - apply String.eqb_eq in E. auto.
  - auto.
Qed.

Lemma get_lookup k k' v o :
  get k' (set k v o) = if String.eqb k' k then Some v else get k' o.
Proof.
  destruct (String.eqb k' k) eqn:E.
  - apply String.eqb_eq in E. subst. apply get_set_same.
  - apply String.eqb_neq in E. apply get_set_other. assumption.
Qed.

Lemma get_remove k k' o :
  get k' (delete k o) = if String.eqb k' k then None else get k' o.
Proof.
  destruct (String.eqb k' k) eqn:E.
  - apply String.eqb_eq in E. subst. apply get_delete_same.
  - apply String.eqb_neq in E. apply get_delete_other. assumption.
Qed.

End Facts.

(** Enumeration order: array indices ascend ahead of every other key. *)
Example keys_order :
  keys (set "12" 3 (set "7" 2 (set "ROOM" 1 (set "1000" 0 [])))) =
  ["7"; "12"; "1000"; "ROOM"].
Proof. reflexivity. Qed.

(** The names an empty table answers for. *)
Example inherited_names :
  filter inherited
    ["constructor"; "toString"; "valueOf"; "hasOwnProperty"; "isPrototypeOf";
     "propertyIsEnumerable"; "toLocaleString"; "__proto__"; "__defineGetter__";
     "__defineSetter__"; "__lookupGetter__"; "__lookupSetter__"; "ABCD";
     "prototype"; "length"; "participants"; ""] =
    ["constructor"; "toString"; "valueOf"; "hasOwnProperty"; "isPrototypeOf";
     "propertyIsEnumerable"; "toLocaleString"; "__proto__"; "__defineGetter__";
     "__defineSetter__"; "__lookupGetter__"; "__lookupSetter__"].
Proof. reflexivity. Qed.

Example array_index_canonical :
  array_index "007" = None /\ array_index "0" = Some 0%N /\
  array_index "4294967295" = None /\ array_index "4294967294" = Some 4294967294%N.
Proof. repeat split. Qed.

End JsObjectFacts.

(** ** Basic facts about arrays and strings *)

Lemma nonempty_length s : nonempty s = false <-> String.length s = 0%nat.
Proof. destruct s; simpl; split; congruence. Qed.

Lemma nonempty_false s : nonempty s = false <-> s = "".
Proof. destruct s; simpl; split; congruence. Qed.

Lemma splice1_length index l :
  (List.length (splice1 index l) <= List.length l)%nat.
Proof.
  revert index. induction l as [|y l IH]; intros [|i]; simpl; auto.
  specialize (IH i). lia.
Qed.

Lemma indexOf_singleton x : indexOf x [x] = Some 0%nat.
Proof. simpl. rewrite String.eqb_refl. reflexivity. Qed.

Lemma indexOf_includes x l :
  includes x l = false <-> indexOf x l = None.
Proof.
  unfold includes. induction l as [|y l IH]; simpl; [tauto|].
  rewrite (String.eqb_sym y x).
  destruct (String.eqb x y); simpl.
  - split; discriminate.
  - rewrite IH. destruct (indexOf x l); split; congruence.
Qed.

(** Counting is exact up to 2^53 and stops there. *)
Example increment_rounds :
  increment 0 = 1%N /\
  increment (2 ^ 53 - 1) = (2 ^ 53)%N /\
  increment (2 ^ 53) = (2 ^ 53)%N /\
  increment (2 ^ 53 + 2) = (2 ^ 53 + 4)%N.
Proof. repeat split. Qed.

(** ** Facts about the handlers *)

Ltac js_unfold :=
  unfold exec, try_catch, bind, when, throw, ret, act, emit, callback,
    modify_db, get_db, put_db, Signaling.update_room, Signaling.new_Date in *.

Section SignalingFacts.
Variable clock : nat -> Time.
Import Signaling.

Lemma remove_participant_eq room socketId nout s :
  remove_participant clock room socketId (fun s0 => (Normal tt, s0, nout)) s =
  (Normal tt, removal clock room socketId s,
   if removes room socketId s then nout else []).
Proof.
  unfold remove_participant, removal, removes, finalizeCallRecord.
  js_unfold. simpl.
  destruct (JsObject.get room (rooms (db s))) as [roomObj|] eqn:Hget; simpl;
    [|reflexivity].
  destruct (indexOf socketId (Room.participants roomObj)) as [index|]; simpl;
    [|reflexivity].
  rewrite Hget. simpl.
  destruct (splice1 index (Room.participants roomObj)) as [|p rest] eqn:Hrest; simpl.
  - destruct (Room.connectedAt roomObj) as [startTime|] eqn:Hc; simpl.
    + rewrite JsObjectFacts.get_set_same. simpl. rewrite Hc. simpl.
      rewrite !app_nil_r. reflexivity.
    + rewrite !app_nil_r. reflexivity.
  - rewrite !app_nil_r. reflexivity.
Qed.

Lemma cleanupRoom_eq room socketId s :
  cleanupRoom clock room socketId s =
  if negb (JsObject.has room (rooms (db s))) && JsObject.inherited room
  then (Thrown "Cannot read properties of undefined (reading 'indexOf')", s, [])
  else (Normal tt, removal clock room socketId s, []).
Proof.
  unfold cleanupRoom, bind, get_db, when.
  destruct (negb (JsObject.has room (rooms (db s))) && JsObject.inherited room);
    [reflexivity|].
  change (ret tt s) with (Normal tt, s, @nil Action).
  cbv iota beta.
  change (ret tt) with (fun s0 : Server => (Normal tt, s0, @nil Action)).
  rewrite remove_participant_eq. destruct (removes room socketId s); reflexivity.
Qed.

(** A name that is not an own property of the room table is removed from
    nothing. *)
Lemma removal_unregistered room socketId s :
  JsObject.has room (rooms (db s)) = false -> removal clock room socketId s = s.
Proof.
  unfold JsObject.has, removal.
  destruct (JsObject.get room (rooms (db s))); [discriminate | reflexivity].
Qed.

Lemma accounted_weaken s1 s2 s3 s4 rec :
  settles clock s1 s2 -> (dates s3 <= dates s4)%nat -> 
  accounted clock s2 s3 rec -> accounted clock s1 s4 rec.
Proof.
  intros H12 Hd (roomObj & n & Hget & Hc & Hn & He & Hq & Hp).
  destruct (st_rooms H12 _ Hget) as (r & Hr & Hcr & _).
  exists r, n. pose proof (st_dates H12).
  repeat split; try assumption; try lia. congruence.
Qed.

Lemma settles_refl s : settles clock s s.
Proof.
  constructor; auto.
  - intros k r' H. exists r'. auto.
  - exists []. rewrite app_nil_r. auto.
Qed.

Lemma settles_trans s1 s2 s3 : settles clock s1 s2 -> settles clock s2 s3 -> settles clock s1 s3.
Proof.
  intros H12 H23. constructor.
  - intros k r3 H3.
    destruct (st_rooms H23 _ H3) as (r2 & H2 & Hc2 & Hl2).
    destruct (st_rooms H12 _ H2) as (r1 & H1 & Hc1 & Hl1).
    exists r1. repeat split; [assumption | congruence | lia].
  - rewrite (st_queues H23). apply (st_queues H12).
  - rewrite (st_stats H23). apply (st_stats H12).
  - pose proof (st_dates H12). pose proof (st_dates H23). lia.
  - destruct (st_records H12) as (new1 & E1 & F1).
    destruct (st_records H23) as (new2 & E2 & F2).
    exists (new1 ++ new2). split.
    + rewrite E2, E1, app_assoc. reflexivity.
    + apply Forall_app. split.
      * eapply Forall_impl; [|exact F1]. intros rec Hrec.
        apply accounted_weaken with (s2 := s1) (s3 := s2);
          [apply settles_refl | exact (st_dates H23) | exact Hrec].
      * eapply Forall_impl; [|exact F2]. intros rec Hrec.
        apply accounted_weaken with (s2 := s2) (s3 := s3); auto.
Qed.

Lemma removal_settles room socketId s : settles clock s (removal clock room socketId s).
Proof.
  unfold removal.
  destruct (JsObject.get room (rooms (db s))) as [roomObj|] eqn:Hget;
    [|apply settles_refl].
  destruct (indexOf socketId (Room.participants roomObj)) as [index|] eqn:Hi;
    [|apply settles_refl].
  pose proof (splice1_length index (Room.participants roomObj)) as Hlen.
  assert (Hframe : forall k r',
    JsObject.get k (JsObject.set room
      (set_participants (splice1 index (Room.participants roomObj)) roomObj)
      (rooms (db s))) = Some r' ->
    exists r, JsObject.get k (rooms (db s)) = Some r /\
      Room.connectedAt r' = Room.connectedAt r /\
      (List.length (Room.participants r') <= List.length (Room.participants r))%nat).
  { intros k r'. rewrite JsObjectFacts.get_lookup.
    destruct (String.eqb k room) eqn:E.
    - apply String.eqb_eq in E. subst k. intros [= <-].
      exists roomObj. simpl. auto.
    - intros H. exists r'. auto. }
  destruct (splice1 index (Room.participants roomObj)) as [|p rest] eqn:Hrest.
  - destruct (Room.connectedAt roomObj) as [startTime|] eqn:Hc.
    + constructor; simpl; auto.
      * intros k r'. rewrite JsObjectFacts.get_remove.
        destruct (String.eqb k room); [discriminate|]. apply Hframe.
      * eexists. split; [reflexivity|]. constructor; [|constructor].
        exists roomObj, (dates s). simpl. repeat split; auto.
    + constructor; simpl; auto.
      exists []. rewrite app_nil_r. auto.
  - constructor; simpl; auto.
    exists []. rewrite app_nil_r. auto.
Qed.

Lemma sweep_settles socketId ks s : settles clock s (sweep clock socketId ks s).
Proof.
  revert s. induction ks as [|k ks IH]; intros s; simpl.
  - apply settles_refl.
  - eapply settles_trans; [apply removal_settles | apply IH].
Qed.

Lemma for_in_eq socketId notify ks s :
  for_in ks (fun room => remove_participant clock room socketId
               (fun s0 => (Normal tt, s0, notify room))) s =
  (Normal tt, sweep clock socketId ks s, sweep_out clock notify socketId ks s).
Proof.
  revert s. induction ks as [|k ks IH]; intros s; simpl.
  - reflexivity.
  - unfold bind. rewrite remove_participant_eq, IH. reflexivity.
Qed.

Lemma cleanupSocketRooms_eq socketId s :
  cleanupSocketRooms clock socketId s =
  (Normal tt, sweep clock socketId (JsObject.keys (rooms (db s))) s,
   sweep_out clock (fun room => [Emit (io_to room) ev_leave]) socketId
     (JsObject.keys (rooms (db s))) s).
Proof.
  unfold cleanupSocketRooms, bind, get_db. simpl.
  change (fun room : string => remove_participant clock room socketId (emit (io_to room) ev_leave))
    with (fun room : string => remove_participant clock room socketId
            (fun s0 => (Normal tt, s0, [Emit (io_to room) ev_leave]))).
  rewrite for_in_eq. reflexivity.
Qed.
End SignalingFacts.

(** ** The handlers in closed form *)

Ltac js_eval :=
  unfold Signaling.update_room; unfold modify_db; unfold emit, callback;
  unfold exec, try_catch, when, throw, ret, act, get_db, put_db,
    Signaling.new_Date;
  unfold bind;
  cbn [db dates pristine rooms callRecords offlineMessages stats fst snd app
       negb set_rooms set_offlineMessages set_callRecords set_stats].

Section Closed.
Variable clock : nat -> Time.
Import Signaling.

Lemma on_create_eq socket room s :
  exec (on_create clock socket room) s =
  if negb (nonempty room) || (String.length room <? 4)%nat
  then (s, [Callback (Failure "Invalid room code")])
  else if JsObject.has room (rooms (db s)) || JsObject.inherited room
  then (s, [Callback (Failure "Room already exists")])
  else (mkServer
          (set_rooms
             (JsObject.set room
                (Room.mk (clock (dates s)) [socket] (Some socket) None)
                (rooms (db s))) (db s))
          (S (dates s)) (pristine s),
        [SocketJoin socket room; Callback (Success (Some room))]).
Proof.
  unfold on_create. js_eval.
  destruct (negb (nonempty room) || (String.length room <? 4)%nat); [reflexivity|].
  js_eval.
  destruct (JsObject.has room (rooms (db s)) || JsObject.inherited room);
    reflexivity.
Qed.

Lemma on_join_eq socket room s :
  exec (on_join socket room) s =
  if negb (nonempty room)
  then (s, [Callback (Failure "Invalid room code");
            Emit (to_socket socket) (ev_error "Invalid room code")])
  else match JsObject.get room (rooms (db s)) with
  | None =>
      if JsObject.inherited room
      then (s, [Callback (Failure
                  "Cannot read properties of undefined (reading 'length')");
                Emit (to_socket socket) (ev_error
                  "Cannot read properties of undefined (reading 'length')")])
      else (s, [Callback (Failure "Room does not exist");
                Emit (to_socket socket) (ev_error "Room does not exist")])
  | Some roomObj =>
      if (2 <=? List.length (Room.participants roomObj))%nat
      then (s, [Callback (Failure "Room is full");
                Emit (to_socket socket) (ev_error "Room is full")])
      else
        let participants := Room.participants roomObj ++ [socket] in
        let second := (List.length participants =? 2)%nat in
        (mkServer
           (mkDB (callRecords (db s))
              (match queue s room with
               | [] => offlineMessages (db s)
               | _ :: _ => JsObject.delete room (offlineMessages (db s))
               end)
              (JsObject.set room (set_participants participants roomObj)
                 (rooms (db s)))
              (if second
               then Stats.mk (increment (Stats.totalCalls (stats (db s))))
                      (Stats.failedCalls (stats (db s)))
                      (Stats.totalConnections (stats (db s)))
               else stats (db s)))
           (dates s) (pristine s),
         SocketJoin socket room ::
         delivery s socket room ++
         Emit (io_to room) (ev_joined room) ::
         (if second
          then match participants with
               | first :: _ => [Emit (io_to first) ev_peer_joined]
               | [] => []
               end
          else []) ++
         [Callback (Success (Some room))])
  end.
Proof.
  unfold on_join, delivery, queue, JsObject.has. js_eval.
  destruct (negb (nonempty room)); [reflexivity|]. js_eval.
  destruct (JsObject.get room (rooms (db s))) as [roomObj|] eqn:Hget;
    [|destruct (JsObject.inherited room); reflexivity].
  js_eval.
  destruct (2 <=? List.length (Room.participants roomObj))%nat; [reflexivity|].
  js_eval. rewrite Hget. js_eval.
  destruct (JsObject.get room (offlineMessages (db s))) as [[|m ms]|];
    cbn [negb andb];
    try destruct (JsObject.inherited room && (0 <? JsObject.inherited_length room)%nat);
    destruct (List.length (Room.participants roomObj ++ [socket]) =? 2)%nat;
    destruct (Room.participants roomObj ++ [socket]); reflexivity.
Qed.

Lemma on_signal_eq k socket data s :
  exec (on_signal k socket data) s =
  if negb (nonempty (data_room data)) || negb (truthy (data_payload data))
  then (s, [Callback (Failure (invalid_data k))])
  else if negb (JsObject.has (data_room data) (rooms (db s))) &&
          JsObject.inherited (data_room data)
  then (s, [Callback (Failure
              "Cannot read properties of undefined (reading 'includes')")])
  else if negb (is_participant (db s) (data_room data) socket)
  then (s, [Callback (Failure "Not a room participant")])
  else (s, [Emit (socket_to socket (data_room data)) (signal_event k data);
            Callback (Success None)]).
Proof.
  unfold on_signal, not_participant. js_eval.
  destruct (negb (nonempty (data_room data)) || negb (truthy (data_payload data)));
    [reflexivity|].
  js_eval.
  destruct (negb (JsObject.has (data_room data) (rooms (db s))) &&
            JsObject.inherited (data_room data)); [reflexivity|].
  js_eval.
  destruct (negb (is_participant (db s) (data_room data) socket)); reflexivity.
Qed.

Lemma on_recording_eq text socket room s :
  exec (on_recording text socket room) s =
  if negb (JsObject.has room (rooms (db s))) && JsObject.inherited room
  then (s, [Callback (Failure
              "Cannot read properties of undefined (reading 'includes')")])
  else if negb (is_participant (db s) room socket)
  then (s, [Callback (Failure "Not a room participant")])
  else (s, [Emit (socket_to socket room) (ev_recording_notification text);
            Callback (Success None)]).
Proof.
  unfold on_recording, not_participant. js_eval.
  destruct (negb (JsObject.has room (rooms (db s))) && JsObject.inherited room);
    [reflexivity|].
  js_eval.
  destruct (negb (is_participant (db s) room socket)); reflexivity.
Qed.

Lemma on_leave_message_eq socket room message s :
  exec (on_leave_message clock socket room message) s =
  if negb (nonempty room) || negb (truthy message)
  then (s, [Callback (Failure "Invalid message data")])
  else if negb (JsObject.has room (rooms (db s)) || JsObject.inherited room)
  then (s, [Callback (Failure "Room does not exist")])
  else if negb (JsObject.has room (offlineMessages (db s))) &&
          JsObject.inherited room
  then (mkServer (db s) (S (dates s)) (pristine s),
        [Callback (Failure "db.offlineMessages[room].push is not a function")])
  else (mkServer
          (set_offlineMessages
             (JsObject.set room
                (queue s room ++
                 [OfflineMessage.mk socket message (clock (dates s))])
                (if JsObject.has room (offlineMessages (db s))
                 then offlineMessages (db s)
                 else JsObject.set room [] (offlineMessages (db s))))
             (db s))
          (S (dates s)) (pristine s),
        [Emit (socket_to socket room) (ev_offline_message socket message);
         Callback (Success None)]).
Proof.
  unfold on_leave_message, queue. js_eval.
  destruct (negb (nonempty room) || negb (truthy message)); [reflexivity|].
  js_eval.
  destruct (negb (JsObject.has room (rooms (db s)) || JsObject.inherited room));
    [reflexivity|].
  js_eval. unfold JsObject.has.
  destruct (JsObject.get room (offlineMessages (db s))) as [q|] eqn:Hq;
    cbn [orb negb andb]; js_eval.
  - rewrite Hq. js_eval. reflexivity.
  - destruct (JsObject.inherited room); cbn [negb]; js_eval.
    + rewrite Hq. js_eval. reflexivity.
    + rewrite JsObjectFacts.get_set_same. js_eval. reflexivity.
Qed.

Lemma on_call_connected_eq socket room s :
  exec (on_call_connected clock socket room) s =
  match JsObject.get room (rooms (db s)) with
  | Some roomObj =>
      (mkServer
         (set_rooms
            (JsObject.set room (set_connectedAt (clock (dates s)) roomObj)
               (rooms (db s))) (db s))
         (S (dates s)) (pristine s),
       [Callback (Success None)])
  | None =>
      if JsObject.inherited room
      then (mkServer (db s) (S (dates s))
              (if String.eqb room "__proto__" then false else pristine s),
            [Callback (Success None)])
      else (s, [Callback (Failure "Room not found")])
  end.
Proof.
  unfold on_call_connected. js_eval.
  destruct (JsObject.get room (rooms (db s))) as [roomObj|] eqn:Hget.
  - js_eval. rewrite Hget. reflexivity.
  - destruct (JsObject.inherited room); [|reflexivity].
    js_eval. unfold write_prototype.
    destruct (String.eqb room "__proto__"); reflexivity.
Qed.

Lemma on_leave_eq socket room s :
  exec (on_leave clock socket room) s =
  if negb (JsObject.has room (rooms (db s))) && JsObject.inherited room
  then (s, [SocketLeave socket room;
            Callback (Failure
              "Cannot read properties of undefined (reading 'indexOf')")])
  else (removal clock room socket s,
        [SocketLeave socket room; Emit (socket_to socket room) ev_leave;
         Callback (Success None)]).
Proof.
  unfold on_leave, exec, try_catch, bind, act.
  rewrite cleanupRoom_eq.
  destruct (negb (JsObject.has room (rooms (db s))) && JsObject.inherited room);
    reflexivity.
Qed.

(** Whatever the name, the state after a leave is the state after the
    removal. *)
Lemma on_leave_state socket room s :
  fst (exec (on_leave clock socket room) s) = removal clock room socket s.
Proof.
  rewrite on_leave_eq.
  destruct (JsObject.has room (rooms (db s))) eqn:Hhas; cbn [negb andb fst];
    [reflexivity|].
  destruct (JsObject.inherited room); cbn [fst]; [|reflexivity].
  symmetry. apply removal_unregistered. exact Hhas.
Qed.

Lemma on_disconnect_eq socket s :
  exec (on_disconnect clock socket) s =
  (sweep clock socket (JsObject.keys (rooms (db s))) s,
   sweep_out clock (fun room => [Emit (io_to room) ev_leave]) socket
     (JsObject.keys (rooms (db s))) s).
Proof.
  unfold on_disconnect, exec. rewrite cleanupSocketRooms_eq. reflexivity.
Qed.

Lemma on_connection_eq socket s :
  exec (on_connection clock socket) s =
  (mkServer
     (set_stats
        (Stats.mk (Stats.totalCalls (stats (db s)))
           (Stats.failedCalls (stats (db s)))
           (increment (Stats.totalConnections (stats (db s))))) (db s))
     (S (dates s)) (pristine s), []).
Proof. reflexivity. Qed.
End Closed.

Import Signaling.

Ltac handler_cases :=
  unfold step; cbn [fst snd handle];
  rewrite ?on_connection_eq, ?on_disconnect_eq, ?on_create_eq, ?on_join_eq,
    ?on_signal_eq, ?on_recording_eq, ?on_leave_message_eq,
    ?on_call_connected_eq, ?on_leave_eq;
  cbv zeta;
  repeat match goal with
  | |- context [if ?b then _ else _] => destruct b eqn:?
  | |- context [match JsObject.get ?k ?o with _ => _ end] =>
      destruct (JsObject.get k o) eqn:?
  end;
  cbn [fst snd].

(** ** Frames of a request *)

Lemma bounded_same s s' :
  rooms (db s') = rooms (db s) -> bounded s -> bounded s'.
Proof. intros E H k r. rewrite E. apply H. Qed.

Lemma bounded_set s s' room roomObj :
  rooms (db s') = JsObject.set room roomObj (rooms (db s)) ->
  (List.length (Room.participants roomObj) <= 2)%nat ->
  bounded s -> bounded s'.
Proof.
  intros E Hlen H k r. rewrite E, JsObjectFacts.get_lookup.
  destruct (String.eqb k room).
  - intros [= <-]. assumption.
  - apply H.
Qed.

Lemma bounded_settles clock s s' : settles clock s s' -> bounded s -> bounded s'.
Proof.
  intros Hs H k r' Hget.
  destruct (st_rooms Hs _ Hget) as (r & Hr & _ & Hl).
  specialize (H _ _ Hr). lia.
Qed.

Lemma step_bounded clock s i : bounded s -> bounded (fst (step clock s i)).
Proof.
  intros H. destruct i as [socket r]. unfold step. cbn [fst snd].
  destruct r; cbn [handle].
  - rewrite on_connection_eq. revert H. apply bounded_same. reflexivity.
  - rewrite on_disconnect_eq. revert H. apply (@bounded_settles clock), sweep_settles.
  - exact H.
  - exact H.
  - exact H.
  - rewrite on_create_eq.
    destruct (negb (nonempty room) || (String.length room <? 4)%nat); [exact H|].
    destruct (JsObject.has room (rooms (db s)) || JsObject.inherited room);
      [exact H|].
    revert H. eapply bounded_set; [reflexivity|]. simpl. lia.
  - rewrite on_join_eq.
    destruct (negb (nonempty room)); [exact H|].
    destruct (JsObject.get room (rooms (db s))) as [roomObj|] eqn:Hget;
      [|destruct (JsObject.inherited room); exact H].
    destruct (2 <=? List.length (Room.participants roomObj))%nat eqn:Hfull;
      [exact H|].
    apply Nat.leb_gt in Hfull.
    revert H. eapply bounded_set; [reflexivity|].
    simpl. rewrite length_app. simpl. lia.
  - rewrite on_signal_eq.
    destruct (_ || _); [exact H|]. destruct (_ && _); [exact H|].
    destruct (negb _); exact H.
  - rewrite on_signal_eq.
    destruct (_ || _); [exact H|]. destruct (_ && _); [exact H|].
    destruct (negb _); exact H.
  - rewrite on_signal_eq.
    destruct (_ || _); [exact H|]. destruct (_ && _); [exact H|].
    destruct (negb _); exact H.
  - exact H.
  - rewrite on_recording_eq. destruct (_ && _); [exact H|].
    destruct (negb _); exact H.
  - rewrite on_recording_eq. destruct (_ && _); [exact H|].
    destruct (negb _); exact H.
  - rewrite on_leave_message_eq.
    destruct (_ || _); [exact H|]. destruct (negb _); [exact H|].
    destruct (_ && _); revert H; apply bounded_same; reflexivity.
  - rewrite on_call_connected_eq.
    destruct (JsObject.get room (rooms (db s))) as [roomObj|] eqn:Hget;
      [|destruct (JsObject.inherited room); exact H].
    pose proof (H _ _ Hget).
    revert H. eapply bounded_set; [reflexivity|]. simpl. assumption.
  - rewrite on_leave_state. revert H.
    apply (@bounded_settles clock), removal_settles.
Qed.

(** The prototypes stay untouched under every request but a
    call_connected of [__proto__]. *)
Lemma step_pristine clock s socket r :
  r <> CallConnected "__proto__" ->
  pristine (fst (step clock s (socket, r))) = pristine s.
Proof.
  intros Hr. unfold step. cbn [fst snd].
  destruct r; cbn [handle]; try reflexivity.
  - rewrite on_disconnect_eq. cbn [fst].
    generalize (JsObject.keys (rooms (db s))). intros ks. revert s.
    induction ks as [|k ks IH]; intros s; [reflexivity|].
    cbn [sweep]. rewrite IH. unfold removal.
    destruct (JsObject.get k (rooms (db s))) as [roomObj|]; [|reflexivity].
    destruct (indexOf socket (Room.participants roomObj)); [|reflexivity].
    destruct (splice1 _ _); [destruct (Room.connectedAt roomObj)|]; reflexivity.
  - rewrite on_create_eq.
    destruct (_ || _); [reflexivity|]. destruct (_ || _); reflexivity.
  - rewrite on_join_eq. destruct (negb _); [reflexivity|].
    destruct (JsObject.get _ _); [|destruct (JsObject.inherited _); reflexivity].
    destruct (2 <=? _)%nat; reflexivity.
  - rewrite on_signal_eq. destruct (_ || _); [reflexivity|].
    destruct (_ && _); [reflexivity|]. destruct (negb _); reflexivity.
  - rewrite on_signal_eq. destruct (_ || _); [reflexivity|].
    destruct (_ && _); [reflexivity|]. destruct (negb _); reflexivity.
  - rewrite on_signal_eq. destruct (_ || _); [reflexivity|].
    destruct (_ && _); [reflexivity|]. destruct (negb _); reflexivity.
  - rewrite on_recording_eq.
    destruct (_ && _); [reflexivity|]. destruct (negb _); reflexivity.
  - rewrite on_recording_eq.
    destruct (_ && _); [reflexivity|]. destruct (negb _); reflexivity.
  - rewrite on_leave_message_eq. destruct (_ || _); [reflexivity|].
    destruct (negb _); [reflexivity|]. destruct (_ && _); reflexivity.
  - rewrite on_call_connected_eq.
    destruct (JsObject.get _ _); [reflexivity|].
    destruct (JsObject.inherited _); [|reflexivity]. cbn [fst pristine].
    destruct (String.eqb_spec room "__proto__") as [->|_]; [|reflexivity].
    contradiction Hr. reflexivity.
  - rewrite on_leave_state. unfold removal.
    destruct (JsObject.get room (rooms (db s))) as [roomObj|]; [|reflexivity].
    destruct (indexOf socket (Room.participants roomObj)); [|reflexivity].
    destruct (splice1 _ _); [destruct (Room.connectedAt roomObj)|]; reflexivity.
Qed.

Lemma run_cons clock s i trace :
  run clock s (i :: trace) =
  (fst (run clock (fst (step clock s i)) trace),
   snd (step clock s i) ++ snd (run clock (fst (step clock s i)) trace)).
Proof.
  simpl. destruct (step clock s i) as [s1 out1]. simpl.
  destruct (run clock s1 trace). reflexivity.
Qed.

Lemma run_pristine clock trace : forall s,
  Forall (fun i => snd i <> CallConnected "__proto__") trace ->
  pristine (fst (run clock s trace)) = pristine s.
Proof.
  induction trace as [|[socket r] trace IH]; intros s H; [reflexivity|].
  inversion H as [|? ? Hr Ht]; subst. rewrite run_cons. cbn [fst].
  rewrite IH by exact Ht. apply step_pristine. exact Hr.
Qed.

Lemma finalizeCallRecord_eq clock room s :
  exec (finalizeCallRecord clock room) s =
  match JsObject.get room (rooms (db s)) with
  | Some roomObj =>
      match Room.connectedAt roomObj with
      | Some startTime =>
          (mkServer
             (mkDB (callRecords (db s) ++
                      [CallRecord.mk room startTime (clock (dates s))
                         (Qmake (clock (dates s) - startTime) 1000)
                         (Room.participants roomObj)])
                (offlineMessages (db s))
                (JsObject.delete room (rooms (db s)))
                (stats (db s)))
             (S (dates s)) (pristine s), [])
      | None => (s, [])
      end
  | None => (s, [])
  end.
Proof.
  unfold finalizeCallRecord. js_eval.
  destruct (JsObject.get room (rooms (db s))) as [roomObj|]; [|reflexivity].
  destruct (Room.connectedAt roomObj); reflexivity.
Qed.

Lemma no_new_record clock s s' :
  callRecords (db s') = callRecords (db s) ->
  exists new, callRecords (db s') = callRecords (db s) ++ new /\
    Forall (accounted clock s s') new.
Proof. intros E. exists []. rewrite app_nil_r. auto. Qed.

Lemma step_records clock s i :
  exists new,
    callRecords (db (fst (step clock s i))) = callRecords (db s) ++ new /\
    Forall (accounted clock s (fst (step clock s i))) new.
Proof.
  destruct i as [socket r]. unfold step. cbn [fst snd].
  destruct r; cbn [handle]; try (apply no_new_record; reflexivity).
  - rewrite on_disconnect_eq. apply (st_records (sweep_settles clock _ _ _)).
  - rewrite on_create_eq.
    destruct (_ || _); [apply no_new_record; reflexivity|].
    destruct (_ || _); apply no_new_record; reflexivity.
  - rewrite on_join_eq.
    destruct (negb _); [apply no_new_record; reflexivity|].
    destruct (JsObject.get _ _);
      [|destruct (JsObject.inherited _); apply no_new_record; reflexivity].
    destruct (2 <=? _)%nat; apply no_new_record; reflexivity.
  - rewrite on_signal_eq.
    destruct (_ || _); [apply no_new_record; reflexivity|].
    destruct (_ && _); [apply no_new_record; reflexivity|].
    destruct (negb _); apply no_new_record; reflexivity.
  - rewrite on_signal_eq.
    destruct (_ || _); [apply no_new_record; reflexivity|].
    destruct (_ && _); [apply no_new_record; reflexivity|].
    destruct (negb _); apply no_new_record; reflexivity.
  - rewrite on_signal_eq.
    destruct (_ || _); [apply no_new_record; reflexivity|].
    destruct (_ && _); [apply no_new_record; reflexivity|].
    destruct (negb _); apply no_new_record; reflexivity.
  - rewrite on_recording_eq.
    destruct (_ && _); [apply no_new_record; reflexivity|].
    destruct (negb _); apply no_new_record; reflexivity.
  - rewrite on_recording_eq.
    destruct (_ && _); [apply no_new_record; reflexivity|].
    destruct (negb _); apply no_new_record; reflexivity.
  - rewrite on_leave_message_eq.
    destruct (_ || _); [apply no_new_record; reflexivity|].
    destruct (negb _); [apply no_new_record; reflexivity|].
    destruct (_ && _); apply no_new_record; reflexivity.
  - rewrite on_call_connected_eq.
    destruct (JsObject.get _ _);
      [|destruct (JsObject.inherited _)]; apply no_new_record; reflexivity.
  - rewrite on_leave_state. apply (st_records (removal_settles clock _ _ _)).
Qed.

Lemma removal_other clock room socketId s k :
  k <> room ->
  JsObject.get k (rooms (db (removal clock room socketId s))) =
  JsObject.get k (rooms (db s)).
Proof.
  intros Hk. unfold removal.
  destruct (JsObject.get room (rooms (db s))) as [roomObj|]; [|reflexivity].
  destruct (indexOf socketId (Room.participants roomObj)) as [index|];
    [|reflexivity].
  destruct (splice1 index (Room.participants roomObj)).
  - destruct (Room.connectedAt roomObj); cbn [db rooms set_rooms].
    + rewrite JsObjectFacts.get_delete_other by assumption.
      apply JsObjectFacts.get_set_other. assumption.
    + apply JsObjectFacts.get_set_other. assumption.
  - cbn [db rooms set_rooms]. apply JsObjectFacts.get_set_other. assumption.
Qed.

Lemma removal_last clock room socketId s roomObj startTime :
  JsObject.get room (rooms (db s)) = Some roomObj ->
  Room.participants roomObj = [socketId] ->
  Room.connectedAt roomObj = Some startTime ->
  JsObject.get room (rooms (db (removal clock room socketId s))) = None /\
  callRecords (db (removal clock room socketId s)) =
    callRecords (db s) ++
    [CallRecord.mk room startTime (clock (dates s))
       (Qmake (clock (dates s) - startTime) 1000) []].
Proof.
  intros Hget Hp Hc. unfold removal.
  rewrite Hget, Hp, indexOf_singleton, Hc. cbn [splice1 db rooms callRecords].
  split; [apply JsObjectFacts.get_delete_same | reflexivity].
Qed.

Lemma settles_absent clock s s' k :
  settles clock s s' -> JsObject.get k (rooms (db s)) = None ->
  JsObject.get k (rooms (db s')) = None.
Proof.
  intros H Hk. destruct (JsObject.get k (rooms (db s'))) as [r'|] eqn:E; [|reflexivity].
  destruct (st_rooms H _ E) as (r & Hr & _). congruence.
Qed.

Lemma sweep_last clock socketId room roomObj startTime ks s :
  In room ks ->
  JsObject.get room (rooms (db s)) = Some roomObj ->
  Room.participants roomObj = [socketId] ->
  Room.connectedAt roomObj = Some startTime ->
  JsObject.get room (rooms (db (sweep clock socketId ks s))) = None /\
  exists before endTime after,
    callRecords (db (sweep clock socketId ks s)) =
      callRecords (db s) ++ before ++
      CallRecord.mk room startTime endTime
        (Qmake (endTime - startTime) 1000) [] :: after.
Proof.
  revert s. induction ks as [|k ks IH]; intros s Hin Hget Hp Hc; [destruct Hin|].
  cbn [sweep]. destruct (String.eqb_spec k room) as [->|Hk].
  - destruct (@removal_last clock room socketId s roomObj startTime Hget Hp Hc)
      as [Hnone Hrec].
    pose proof (sweep_settles clock socketId ks (removal clock room socketId s)) as Hs.
    split; [eapply settles_absent; eauto|].
    destruct (st_records Hs) as (new & E & _).
    exists [], (clock (dates s)), new. rewrite E, Hrec, <- app_assoc. reflexivity.
  - destruct Hin as [->|Hin]; [contradiction|].
    assert (Hget' : JsObject.get room (rooms (db (removal clock k socketId s))) =
                    Some roomObj).
    { rewrite removal_other; auto. }
    destruct (IH _ Hin Hget' Hp Hc) as (Hnone & before & endTime & after & E).
    split; [exact Hnone|].
    destruct (st_records (removal_settles clock k socketId s)) as (new & E1 & _).
    exists (new ++ before), endTime, after.
    rewrite E, E1, <- !app_assoc. reflexivity.
Qed.

Lemma peer_joined_targets_app out1 out2 :
  peer_joined_targets (out1 ++ out2) =
  peer_joined_targets out1 ++ peer_joined_targets out2.
Proof.
  induction out1 as [|a out1 IH]; [reflexivity|].
  destruct a as [t e| | |]; cbn; try assumption.
  destruct e; cbn; try assumption. rewrite IH. reflexivity.
Qed.

Lemma sweep_out_quiet clock socketId ks s :
  peer_joined_targets
    (sweep_out clock (fun room => [Emit (io_to room) ev_leave]) socketId ks s) = [].
Proof.
  revert s. induction ks as [|k ks IH]; intros s; [reflexivity|].
  cbn [sweep_out]. rewrite peer_joined_targets_app, IH.
  destruct (removes k socketId s); reflexivity.
Qed.


Lemma succeeded_join socket room l1 l2 :
  succeeded (SocketJoin socket room :: l1 ++
             Emit (io_to room) (ev_joined room) :: l2 ++
             [Callback (Success (Some room))]) = true.
Proof.
  unfold succeeded. cbn [existsb]. rewrite existsb_app.
  cbn [existsb]. rewrite existsb_app. cbn [existsb].
  rewrite !orb_true_r. reflexivity.
Qed.




Lemma codes_valid_same s s' :
  rooms (db s') = rooms (db s) -> codes_valid s -> codes_valid s'.
Proof. intros E H k. rewrite E. apply H. Qed.

Lemma codes_valid_set s s' room roomObj :
  rooms (db s') = JsObject.set room roomObj (rooms (db s)) ->
  (4 <= String.length room)%nat ->
  codes_valid s -> codes_valid s'.
Proof.
  intros E Hlen H k. unfold JsObject.has. rewrite E, JsObjectFacts.get_lookup.
  destruct (String.eqb_spec k room) as [->|Hk]; [auto|].
  apply H.
Qed.

Lemma codes_valid_settles clock s s' :
  settles clock s s' -> codes_valid s -> codes_valid s'.
Proof.
  intros Hs H k. unfold JsObject.has.
  destruct (JsObject.get k (rooms (db s'))) as [r'|] eqn:E; [|discriminate].
  intros _. destruct (st_rooms Hs _ E) as (r & Hr & _).
  apply H. unfold JsObject.has. rewrite Hr. reflexivity.
Qed.

Lemma step_codes_valid clock s i :
  codes_valid s -> codes_valid (fst (step clock s i)).
Proof.
  intros H. destruct i as [socket r]. unfold step. cbn [fst snd].
  destruct r; cbn [handle]; try exact H.
  - rewrite on_disconnect_eq. revert H.
    apply (@codes_valid_settles clock), sweep_settles.
  - rewrite on_create_eq.
    destruct (nonempty room); cbn [negb orb]; [|exact H].
    destruct (String.length room <? 4)%nat eqn:Hlen; [exact H|].
    apply Nat.ltb_ge in Hlen.
    destruct (_ || _); [exact H|].
    revert H. eapply codes_valid_set; [reflexivity | exact Hlen].
  - rewrite on_join_eq.
    destruct (negb (nonempty room)); [exact H|].
    destruct (JsObject.get room (rooms (db s))) as [roomObj|] eqn:Hget;
      [|destruct (JsObject.inherited room); exact H].
    destruct (2 <=? _)%nat; [exact H|].
    assert (Hlen : (4 <= String.length room)%nat).
    { apply H. unfold JsObject.has. rewrite Hget. reflexivity. }
    revert H. eapply codes_valid_set; [reflexivity | exact Hlen].
  - rewrite on_signal_eq.
    destruct (_ || _); [exact H|]. destruct (_ && _); [exact H|].
    destruct (negb _); exact H.
  - rewrite on_signal_eq.
    destruct (_ || _); [exact H|]. destruct (_ && _); [exact H|].
    destruct (negb _); exact H.
  - rewrite on_signal_eq.
    destruct (_ || _); [exact H|]. destruct (_ && _); [exact H|].
    destruct (negb _); exact H.
  - rewrite on_recording_eq. destruct (_ && _); [exact H|].
    destruct (negb _); exact H.
  - rewrite on_recording_eq. destruct (_ && _); [exact H|].
    destruct (negb _); exact H.
  - rewrite on_leave_message_eq.
    destruct (_ || _); [exact H|]. destruct (negb _); [exact H|].
    destruct (_ && _); exact H.
  - rewrite on_call_connected_eq.
    destruct (JsObject.get room (rooms (db s))) as [roomObj|] eqn:Hget;
      [|destruct (JsObject.inherited room); exact H].
    assert (Hlen : (4 <= String.length room)%nat).
    { apply H. unfold JsObject.has. rewrite Hget. reflexivity. }
    revert H. eapply codes_valid_set; [reflexivity | exact Hlen].
  - rewrite on_leave_state. revert H.
    apply (@codes_valid_settles clock), removal_settles.
Qed.

(** Started on an empty database, the server only ever registers codes of
    four characters or more. *)
Lemma registered_codes_valid clock trace :
  codes_valid (fst (run clock fresh trace)).
Proof.
  assert (H : codes_valid fresh) by (intros k E; discriminate E).
  revert H. generalize fresh.
  induction trace as [|i trace IH]; intros s H; [exact H|].
  rewrite run_cons. cbn [fst]. apply IH, step_codes_valid, H.
Qed.

(** X14. In every state the server reaches from an empty database, a
    create of a registered code is answered "Room already exists" and
    changes nothing. *)
Lemma create_on_registered_code clock trace socket room :
  JsObject.has room (rooms (db (fst (run clock fresh trace)))) = true ->
  exec (on_create clock socket room) (fst (run clock fresh trace)) =
  (fst (run clock fresh trace), [Callback (Failure "Room already exists")]).
Proof.
  intros Hhas. pose proof (registered_codes_valid clock trace room Hhas) as Hlen.
  rewrite on_create_eq, Hhas.
  apply Nat.ltb_ge in Hlen. rewrite Hlen.
  destruct room; [discriminate Hlen|]. reflexivity.
Qed.

(** ** Properties of the room lifecycle and relay *)

(** C1. Along every sequence of requests (create, join, leave,
    call_connected, disconnect and all the others), from a room table in
    which no room lists more than two participants, no room ever lists more
    than two; the length of a list is never negative. *)
Theorem participants_never_exceed_two (clock : nat -> Time) (s : Server)
    (trace : list (SocketId * Request)) :
  bounded s -> bounded (fst (run clock s trace)).
Proof.
  revert s. induction trace as [|i trace IH]; intros s H.
  - exact H.
  - rewrite run_cons. cbn [fst]. apply IH, step_bounded, H.
Qed.

Lemma participants_never_exceed_two_witness :
  bounded fresh /\ bounded (fst (run sample_clock fresh scenario)).
Proof.
  assert (H : bounded fresh) by (intros k r E; discriminate E).
  split; [exact H|].
  apply (@participants_never_exceed_two sample_clock fresh scenario H).
Defined.

(** C2. A create request with a code shorter than four characters (the
    empty code included) is refused with "Invalid room code"; with a
    registered code it is refused, with "Room already exists" when the code
    is long enough, and so is a code of four characters or more that the
    room table inherits, such as "constructor".  In a process whose
    prototypes are untouched, any other code of four characters or more is
    registered with the creator as its only participant, after which every
    further create of that code is refused with "Room already exists".  A
    request that succeeds leaves a room whose participants are exactly the
    creator; a refused request leaves the whole state as it was. *)
Theorem create_contract (clock : nat -> Time) (s : Server)
    (socket : SocketId) (room : string) :
  let (s', out) := exec (on_create clock socket room) s in
  ((String.length room < 4)%nat ->
     s' = s /\ out = [Callback (Failure "Invalid room code")]) /\
  (JsObject.has room (rooms (db s)) = true ->
     s' = s /\ succeeded out = false /\
     ((4 <= String.length room)%nat ->
        out = [Callback (Failure "Room already exists")])) /\
  ((4 <= String.length room)%nat -> JsObject.inherited room = true ->
     s' = s /\ out = [Callback (Failure "Room already exists")]) /\
  (pristine s = true -> (4 <= String.length room)%nat ->
   JsObject.has room (rooms (db s)) = false -> JsObject.inherited room = false ->
     out = [SocketJoin socket room; Callback (Success (Some room))] /\
     JsObject.get room (rooms (db s')) =
       Some (Room.mk (clock (dates s)) [socket] (Some socket) None) /\
     (forall other, other <> room ->
        JsObject.get other (rooms (db s')) = JsObject.get other (rooms (db s))) /\
     (forall socket2,
        exec (on_create clock socket2 room) s' =
        (s', [Callback (Failure "Room already exists")]))) /\
  (succeeded out = false -> s' = s) /\
  (succeeded out = true ->
     exists roomObj,
       JsObject.get room (rooms (db s')) = Some roomObj /\
       Room.participants roomObj = [socket]).
Proof.
  rewrite on_create_eq.
  destruct (nonempty room) eqn:Hne; cbn [negb orb].
  - destruct (String.length room <? 4)%nat eqn:Hlen.
    + apply Nat.ltb_lt in Hlen.
      repeat split; intros; try lia; try discriminate; reflexivity.
    + apply Nat.ltb_ge in Hlen.
      destruct (JsObject.has room (rooms (db s))) eqn:Hhas; cbn [orb].
      * repeat split; intros; try lia; try discriminate; reflexivity.
      * destruct (JsObject.inherited room) eqn:Hin.
        -- repeat split; intros; try lia; try discriminate; reflexivity.
        -- split; [intros; lia|]. split; [discriminate|].
           split; [intros; discriminate|].
           split; [|split; [discriminate|]].
           ++ intros _ _ _ _. split; [reflexivity|]. cbn [db rooms set_rooms].
              split; [apply JsObjectFacts.get_set_same|]. split.
              ** intros other Hother. apply JsObjectFacts.get_set_other.
                 assumption.
              ** intros socket2. rewrite on_create_eq, Hne.
                 apply Nat.ltb_ge in Hlen. rewrite Hlen. cbn [negb orb].
                 unfold JsObject.has. cbn [db rooms set_rooms].
                 rewrite JsObjectFacts.get_set_same. reflexivity.
           ++ intros _. eexists. cbn [db rooms set_rooms].
              split; [apply JsObjectFacts.get_set_same | reflexivity].
  - apply nonempty_length in Hne.
    repeat split; intros; try lia; try discriminate; reflexivity.
Qed.

(** On a fresh server: room ABCD is registered for its creator, and
    "constructor" is refused as existing. *)
Example create_on_a_fresh_server :
  exec (on_create sample_clock "A" "ABCD") fresh =
    (mkServer
       (mkDB [] [] [("ABCD", Room.mk 0%Z ["A"] (Some "A") None)] (Stats.mk 0 0 0))
       1 true,
     [SocketJoin "A" "ABCD"; Callback (Success (Some "ABCD"))]) /\
  exec (on_create sample_clock "A" "constructor") fresh =
    (fresh, [Callback (Failure "Room already exists")]).
Proof. split; reflexivity. Qed.

(** C3, amended.  A join request with the empty code is refused with
    "Invalid room code".  With a non-empty code: in a process whose
    prototypes are untouched, a code that is neither registered nor
    inherited by the room table is refused with "Room does not exist", to
    the caller only; a room that lists two or more participants is refused
    with "Room is full"; otherwise the request succeeds and the socket is
    appended at the end of the participants, the other fields of the room
    and the other rooms being kept, so that an entry that was first stays
    first. *)
Theorem join_contract (s : Server) (socket : SocketId) (room : string) :
  let (s', out) := exec (on_join socket room) s in
  (room = "" ->
     s' = s /\
     out = [Callback (Failure "Invalid room code");
            Emit (to_socket socket) (ev_error "Invalid room code")]) /\
  (pristine s = true ->
   room <> "" -> JsObject.get room (rooms (db s)) = None ->
   JsObject.inherited room = false ->
     s' = s /\
     out = [Callback (Failure "Room does not exist");
            Emit (to_socket socket) (ev_error "Room does not exist")] /\
     forwarded socket out = []) /\
  (forall roomObj,
     room <> "" -> JsObject.get room (rooms (db s)) = Some roomObj ->
     (2 <= List.length (Room.participants roomObj))%nat ->
     s' = s /\
     out = [Callback (Failure "Room is full");
            Emit (to_socket socket) (ev_error "Room is full")]) /\
  (forall roomObj,
     room <> "" -> JsObject.get room (rooms (db s)) = Some roomObj ->
     (List.length (Room.participants roomObj) < 2)%nat ->
     succeeded out = true /\
     (exists roomObj',
        JsObject.get room (rooms (db s')) = Some roomObj' /\
        Room.participants roomObj' = Room.participants roomObj ++ [socket] /\
        Room.createdAt roomObj' = Room.createdAt roomObj /\
        Room.creator roomObj' = Room.creator roomObj /\
        Room.connectedAt roomObj' = Room.connectedAt roomObj /\
        (forall first, hd_error (Room.participants roomObj) = Some first ->
           hd_error (Room.participants roomObj') = Some first)) /\
     (forall other, other <> room ->
        JsObject.get other (rooms (db s')) = JsObject.get other (rooms (db s)))).
Proof.
  rewrite on_join_eq.
  destruct (nonempty room) eqn:Hne; cbn [negb].
  - assert (Hroom : room <> "") by (intros ->; discriminate).
    destruct (JsObject.get room (rooms (db s))) as [roomObj|] eqn:Hget.
    + destruct (2 <=? List.length (Room.participants roomObj))%nat eqn:Hfull.
      * apply Nat.leb_le in Hfull.
        split; [intros; contradiction|]. split; [intros; discriminate|].
        split; [intros r _ _ _; auto|].
        intros r _ [= <-] Hlt. lia.
      * apply Nat.leb_gt in Hfull.
        split; [intros; contradiction|]. split; [intros; discriminate|].
        split; [intros r _ [= <-] Hge; lia|].
        intros r _ [= <-] _. cbn zeta. split; [|split].
        -- apply succeeded_join.
        -- eexists. cbn [db rooms]. split; [apply JsObjectFacts.get_set_same|].
           cbn [set_participants Room.participants Room.createdAt Room.creator
                Room.connectedAt].
           repeat (split; [reflexivity|]).
           intros first. destruct (Room.participants roomObj); simpl; auto.
           discriminate.
        -- intros other Hother. cbn [db rooms].
           apply JsObjectFacts.get_set_other. assumption.
    + destruct (JsObject.inherited room) eqn:Hin.
      * split; [intros; contradiction|]. split; [intros; discriminate|].
        split; intros; discriminate.
      * split; [intros; contradiction|]. split.
        -- intros _ _ _ _. split; [reflexivity|]. split; [reflexivity|].
           cbn [forwarded]. rewrite String.eqb_refl. reflexivity.
        -- split; intros; discriminate.
  - apply nonempty_false in Hne. subst room.
    split; [auto|]. split; [intros; contradiction|].
    split; intros; contradiction.
Qed.

(** C3 as stated fails.  The empty code is not registered, yet a join of
    it is answered "Invalid room code", not "Room does not exist".  And
    the first entry is not always the creator or the first socket that
    joined: once A, who created room ABCD, and B, who joined it first, have
    left, C joins with success and is the first entry. *)
Lemma join_as_stated_fails :
  (JsObject.get "" (rooms (db fresh)) = None /\
   snd (exec (on_join "B" "") fresh) =
     [Callback (Failure "Invalid room code");
      Emit (to_socket "B") (ev_error "Invalid room code")] /\
   ~ In (Callback (Failure "Room does not exist"))
       (snd (exec (on_join "B" "") fresh))) /\
  (succeeded (snd (exec (on_join "C" "ABCD")
                     (fst (run sample_clock fresh departed)))) = true /\
   JsObject.get "ABCD"
     (rooms (db (fst (exec (on_join "C" "ABCD")
                        (fst (run sample_clock fresh departed)))))) =
     Some (Room.mk 0%Z ["C"] (Some "A") None)).
Proof.
  split.
  - split; [reflexivity|]. split; [reflexivity|].
    intros [H|[H|[]]]; discriminate.
  - split; reflexivity.
Qed.

(** On a fresh server a join of "constructor" is not answered "Room does
    not exist": the handler fails at [participants.length]. *)
Example join_of_an_inherited_name :
  exec (on_join "B" "constructor") fresh =
    (fresh,
     [Callback (Failure "Cannot read properties of undefined (reading 'length')");
      Emit (to_socket "B")
        (ev_error "Cannot read properties of undefined (reading 'length')")]).
Proof. reflexivity. Qed.

(** C4, amended.  A relay request (offer, answer or ice) never changes the
    state.  When its room name is empty or its payload is falsy it is
    refused as invalid data of its kind, whoever sends it, and nothing is
    forwarded.  When both are present: a sender that the registered room
    does not list (or, in a process whose prototypes are untouched, that
    names a room neither registered nor inherited by the room table) is
    refused with "Not a room participant" and nothing is forwarded; a
    participant's data is forwarded as it came, once, under the event name
    of its kind, to the room's group without the sender. *)
Theorem relay_contract (s : Server) (k : SignalKind) (socket : SocketId)
    (data : SignalData) :
  let (s', out) := exec (on_signal k socket data) s in
  s' = s /\
  (data_room data = "" \/ truthy (data_payload data) = false ->
     out = [Callback (Failure
              match k with
              | offer => "Invalid offer data"
              | answer => "Invalid answer data"
              | ice => "Invalid ICE candidate data"
              end)] /\
     forwarded socket out = []) /\
  (data_room data <> "" -> truthy (data_payload data) = true ->
   JsObject.has (data_room data) (rooms (db s)) = true \/
   JsObject.inherited (data_room data) = false /\ pristine s = true ->
   is_participant (db s) (data_room data) socket = false ->
     out = [Callback (Failure "Not a room participant")] /\
     forwarded socket out = []) /\
  (data_room data <> "" -> truthy (data_payload data) = true ->
   is_participant (db s) (data_room data) socket = true ->
     out = [Emit (socket_to socket (data_room data))
              match k with
              | offer => ev_offer data
              | answer => ev_answer data
              | ice => ev_ice data
              end;
            Callback (Success None)]).
Proof.
  rewrite on_signal_eq.
  destruct (nonempty (data_room data)) eqn:Hroom; cbn [negb orb].
  - assert (Hne : data_room data <> "").
    { intros E. rewrite E in Hroom. discriminate. }
    destruct (truthy (data_payload data)) eqn:Hp; cbn [negb].
    + destruct (JsObject.has (data_room data) (rooms (db s))) eqn:Hhas;
        cbn [negb andb].
      * destruct (is_participant (db s) (data_room data) socket) eqn:Hin;
          cbn [negb].
        -- split; [reflexivity|].
           split; [intros [E|E]; [contradiction|discriminate]|].
           split; [intros; discriminate|]. intros _ _ _.
           destruct k; reflexivity.
        -- split; [reflexivity|].
           split; [intros [E|E]; [contradiction|discriminate]|].
           split; [|intros; discriminate]. intros _ _ _ _. split; reflexivity.
      * assert (Hout : is_participant (db s) (data_room data) socket = false).
        { unfold is_participant. unfold JsObject.has in Hhas.
          destruct (JsObject.get (data_room data) (rooms (db s)));
            [discriminate | reflexivity]. }
        rewrite Hout. cbn [negb].
        destruct (JsObject.inherited (data_room data)) eqn:Hinh.
        -- split; [reflexivity|].
           split; [intros [E|E]; [contradiction|discriminate]|].
           split; [intros _ _ [E|[E _]]; discriminate | intros; discriminate].
        -- split; [reflexivity|].
           split; [intros [E|E]; [contradiction|discriminate]|].
           split; [|intros; discriminate]. intros _ _ _ _. split; reflexivity.
    + split; [reflexivity|]. split; [intros _; destruct k; split; reflexivity|].
      split; intros; discriminate.
  - apply nonempty_false in Hroom.
    split; [reflexivity|]. split; [intros _; destruct k; split; reflexivity|].
    split; intros; contradiction.
Qed.

(** In room ABCD the participant A's offer is forwarded as [offer], with
    the data as it came. *)
Example relay_of_an_offer :
  exec (on_signal offer "A" (mkSignal "ABCD" (VObject "{sdp}"))) connected_pair =
    (connected_pair,
     [Emit (socket_to "A" "ABCD") (ev_offer (mkSignal "ABCD" (VObject "{sdp}")));
      Callback (Success None)]).
Proof. reflexivity. Qed.

(** On a fresh server an offer for "constructor" fails at [.includes]. *)
Example relay_for_an_inherited_name :
  exec (on_signal offer "A" (mkSignal "constructor" (VObject "{sdp}"))) fresh =
    (fresh,
     [Callback (Failure
        "Cannot read properties of undefined (reading 'includes')")]).
Proof. reflexivity. Qed.

(** C4 as stated fails: in room ABCD, which lists A only, the participant
    A's ice request with a null candidate is not forwarded, and the outsider
    C's offer without a payload is refused as invalid data, not as "Not a
    room participant". *)
Lemma relay_without_payload_is_invalid :
  is_participant (db connected_pair) "ABCD" "A" = true /\
  is_participant (db connected_pair) "ABCD" "C" = false /\
  exec (on_signal ice "A" (mkSignal "ABCD" VNull)) connected_pair =
    (connected_pair, [Callback (Failure "Invalid ICE candidate data")]) /\
  exec (on_signal offer "C" (mkSignal "ABCD" VUndefined)) connected_pair =
    (connected_pair, [Callback (Failure "Invalid offer data")]).
Proof. repeat split. Qed.



(** C6, amended.  A request sends [peer_joined] exactly when it is a join
    that succeeds on a room listing exactly one participant, taking it to
    two; it is then sent once, to the first participant only.  Nothing
    limits this to once in the life of a room. *)
Theorem peer_joined_on_second_join (clock : nat -> Time) (s : Server)
    (socket : SocketId) (r : Request) :
  let (s', out) := step clock s (socket, r) in
  peer_joined_targets out = peer_joined_due s r /\
  (forall room first,
     r = Join room -> peer_joined_due s r = [io_to first] ->
     exists roomObj roomObj',
       JsObject.get room (rooms (db s)) = Some roomObj /\
       Room.participants roomObj = [first] /\
       JsObject.get room (rooms (db s')) = Some roomObj' /\
       Room.participants roomObj' = [first; socket]).
Proof.
  unfold step. cbn [fst snd].
  destruct r; cbn [handle peer_joined_due];
    try (split; [reflexivity | intros; discriminate]).
  - rewrite on_disconnect_eq.
    split; [apply sweep_out_quiet | intros; discriminate].
  - rewrite on_create_eq.
    destruct (_ || _); [split; [reflexivity | intros; discriminate]|].
    destruct (_ || _); split; try reflexivity; intros; discriminate.
  - rewrite on_join_eq. destruct (nonempty room) eqn:Hne; cbn [negb].
    + destruct (JsObject.get room (rooms (db s))) as [roomObj|] eqn:Hget.
      * assert (Hd : forall l,
          peer_joined_targets (delivery s socket room ++ l) =
          peer_joined_targets l).
        { intros l. unfold delivery.
          destruct (queue s room); [destruct (negb _ && _)|]; reflexivity. }
        destruct (Room.participants roomObj) as [|p [|q l]] eqn:Hp; cbn;
          rewrite ?Hd.
        -- split; try reflexivity; intros; discriminate.
        -- split; [reflexivity|].
           intros room0 first [= <-] [= <-].
           exists roomObj. eexists. split; [exact Hget|]. split; [exact Hp|].
           split; [apply JsObjectFacts.get_set_same|]. reflexivity.
        -- split; [reflexivity | intros; discriminate].
      * destruct (JsObject.inherited room);
          (split; [reflexivity | intros; discriminate]).
    + split; [reflexivity | intros; discriminate].
  - rewrite on_signal_eq.
    destruct (_ || _); [split; [reflexivity | intros; discriminate]|].
    destruct (_ && _); [split; [reflexivity | intros; discriminate]|].
    destruct (negb _); split; try reflexivity; intros; discriminate.
  - rewrite on_signal_eq.
    destruct (_ || _); [split; [reflexivity | intros; discriminate]|].
    destruct (_ && _); [split; [reflexivity | intros; discriminate]|].
    destruct (negb _); split; try reflexivity; intros; discriminate.
  - rewrite on_signal_eq.
    destruct (_ || _); [split; [reflexivity | intros; discriminate]|].
    destruct (_ && _); [split; [reflexivity | intros; discriminate]|].
    destruct (negb _); split; try reflexivity; intros; discriminate.
  - rewrite on_recording_eq.
    destruct (_ && _); [split; [reflexivity | intros; discriminate]|].
    destruct (negb _); split; try reflexivity; intros; discriminate.
  - rewrite on_recording_eq.
    destruct (_ && _); [split; [reflexivity | intros; discriminate]|].
    destruct (negb _); split; try reflexivity; intros; discriminate.
  - rewrite on_leave_message_eq.
    destruct (_ || _); [split; [reflexivity | intros; discriminate]|].
    destruct (negb _); [split; [reflexivity | intros; discriminate]|].
    destruct (_ && _); split; try reflexivity; intros; discriminate.
  - rewrite on_call_connected_eq.
    destruct (JsObject.get _ _); [|destruct (JsObject.inherited _)];
      split; try reflexivity; intros; discriminate.
  - rewrite on_leave_eq.
    destruct (_ && _); split; try reflexivity; intros; discriminate.
Qed.

(** C6 as stated fails: room ABCD stays registered while B joins and
    leaves and C joins, and [peer_joined] is sent to A twice. *)
Lemma peer_joined_twice_in_one_room :
  peer_joined_targets (snd (run sample_clock fresh rejoin)) =
    [io_to "A"; io_to "A"] /\
  map (fun n => JsObject.has "ABCD"
                  (rooms (db (fst (run sample_clock fresh (firstn n rejoin))))))
      [1; 2; 3; 4]%nat = [true; true; true; true].
Proof. split; reflexivity. Qed.


(** C8, amended.  When the only participant A of a registered room with
    [connectedAt] set disconnects, call accounting appends a record for the
    room that starts at [connectedAt] and whose participants snapshot is
    empty (A is removed before the record is written), and the room is
    removed from the registry. *)
Theorem last_participant_disconnects (clock : nat -> Time) (s : Server)
    (A : SocketId) (room : string) (roomObj : Room.t) (startTime : Time) :
  JsObject.get room (rooms (db s)) = Some roomObj ->
  Room.participants roomObj = [A] ->
  Room.connectedAt roomObj = Some startTime ->
  let s' := fst (exec (on_disconnect clock A) s) in
  JsObject.get room (rooms (db s')) = None /\
  exists before record after,
    callRecords (db s') = callRecords (db s) ++ before ++ record :: after /\
    CallRecord.room record = room /\
    CallRecord.startTime record = startTime /\
    CallRecord.participants record = [].
Proof.
  intros Hget Hp Hc. rewrite on_disconnect_eq. cbn [fst].
  destruct (@sweep_last clock A room roomObj startTime
              (JsObject.keys (rooms (db s))) s) as (Hnone & before & e & after & E);
    auto.
  { eapply JsObjectFacts.get_in_keys; eauto. }
  split; [exact Hnone|].
  eexists before, _, after. split; [exact E|]. auto.
Qed.

Lemma last_participant_disconnects_witness :
  let s' := fst (exec (on_disconnect sample_clock "A") connected_pair) in
  JsObject.get "ABCD" (rooms (db s')) = None /\
  exists before record after,
    callRecords (db s') =
      callRecords (db connected_pair) ++ before ++ record :: after /\
    CallRecord.room record = "ABCD" /\
    CallRecord.startTime record = 1000%Z /\
    CallRecord.participants record = [].
Proof.
  apply (@last_participant_disconnects sample_clock connected_pair "A" "ABCD"
           (Room.mk 0%Z ["A"] (Some "A") (Some 1000%Z)) 1000%Z);
    reflexivity.
Defined.

(** C8 as stated fails: room ABCD lists A only and is connected; after A
    disconnects the one record written has an empty snapshot, not [A]. *)
Lemma snapshot_of_last_participant_is_empty :
  JsObject.get "ABCD" (rooms (db connected_pair)) =
    Some (Room.mk 0%Z ["A"] (Some "A") (Some 1000%Z)) /\
  map CallRecord.participants
    (callRecords
       (db (fst (exec (on_disconnect sample_clock "A") connected_pair)))) =
    [[]] /\
  ~ In ["A"]
      (map CallRecord.participants
         (callRecords
            (db (fst (exec (on_disconnect sample_clock "A") connected_pair))))).
Proof.
  split; [reflexivity|]. split; [reflexivity|].
  intros [H|[]]. discriminate.
Qed.

(** C9.  A call_connected request for a registered room succeeds and sets
    the room's [connectedAt] to the instant read from the clock, whatever it
    was before, keeping the other fields and the other rooms: a second
    request overwrites the first with its own, later reading.  In a process
    whose prototypes are untouched, a code that is neither registered nor
    inherited by the room table is refused with "Room not found" and
    changes nothing.  But a code the room table inherits, such as
    "constructor", is not registered and yet acknowledged with success: the
    clock is read, the room table stays as it was, and under the name
    "__proto__" the assignment lands on [Object.prototype]. *)
Theorem call_connected_contract (clock : nat -> Time) (s : Server)
    (socket : SocketId) (room : string) :
  let (s', out) := exec (on_call_connected clock socket room) s in
  (forall roomObj,
     JsObject.get room (rooms (db s)) = Some roomObj ->
     out = [Callback (Success None)] /\
     dates s' = S (dates s) /\
     (exists roomObj',
        JsObject.get room (rooms (db s')) = Some roomObj' /\
        Room.connectedAt roomObj' = Some (clock (dates s)) /\
        Room.createdAt roomObj' = Room.createdAt roomObj /\
        Room.participants roomObj' = Room.participants roomObj /\
        Room.creator roomObj' = Room.creator roomObj) /\
     (forall other, other <> room ->
        JsObject.get other (rooms (db s')) = JsObject.get other (rooms (db s))) /\
     forall socket2,
       let (s'', out') := exec (on_call_connected clock socket2 room) s' in
       out' = [Callback (Success None)] /\
       exists roomObj'',
         JsObject.get room (rooms (db s'')) = Some roomObj'' /\
         Room.connectedAt roomObj'' = Some (clock (S (dates s)))) /\
  (pristine s = true ->
   JsObject.get room (rooms (db s)) = None -> JsObject.inherited room = false ->
     s' = s /\ out = [Callback (Failure "Room not found")]) /\
  (JsObject.get room (rooms (db s)) = None -> JsObject.inherited room = true ->
     out = [Callback (Success None)] /\
     db s' = db s /\ dates s' = S (dates s) /\
     pristine s' = pristine s && negb (String.eqb room "__proto__")).
Proof.
  rewrite on_call_connected_eq.
  destruct (JsObject.get room (rooms (db s))) as [roomObj|] eqn:Hget.
  - split; [|split; intros; discriminate]. intros r [= <-].
    split; [reflexivity|]. cbn [db rooms set_rooms dates].
    split; [reflexivity|]. split; [|split].
    + eexists. split; [apply JsObjectFacts.get_set_same|].
      repeat split; reflexivity.
    + intros other Hother. apply JsObjectFacts.get_set_other. assumption.
    + intros socket2. rewrite on_call_connected_eq.
      cbn [db rooms set_rooms dates]. rewrite JsObjectFacts.get_set_same.
      split; [reflexivity|]. cbn [db rooms set_rooms dates].
      eexists. split; [apply JsObjectFacts.get_set_same | reflexivity].
  - destruct (JsObject.inherited room) eqn:Hin.
    + split; [intros; discriminate|]. split; [intros; discriminate|].
      intros _ _. cbn [db dates pristine].
      destruct (String.eqb room "__proto__"); cbn [negb];
        rewrite ?andb_false_r, ?andb_true_r; repeat split; reflexivity.
    + split; [intros; discriminate|]. split; [auto | intros; discriminate].
Qed.

(** The request C9 is wrong about: on a fresh server no room is registered
    under "constructor", and call_connected for it is acknowledged with
    success. *)
Lemma call_connected_contract_witness :
  JsObject.get "constructor" (rooms (db fresh)) = None /\
  exec (on_call_connected sample_clock "A" "constructor") fresh =
    (mkServer emptyDB 1 true, [Callback (Success None)]).
Proof.
  split; [reflexivity|].
  pose proof (@call_connected_contract sample_clock fresh "A" "constructor")
    as H.
  destruct (exec (on_call_connected sample_clock "A" "constructor") fresh)
    as [[d n p] out].
  destruct H as (_ & _ & H).
  destruct H as (-> & Hd & Hn & Hp); [reflexivity | reflexivity |].
  cbn [db dates pristine] in *. subst. reflexivity.
Defined.

(** C10.  A leave request of a socket that the named room does not list
    leaves the state unchanged.  When the room is registered, or (in a
    process whose prototypes are untouched) its name is neither registered
    nor inherited by the room table, the request is acknowledged with
    success and still sends [leave] to the room's group.  But under an
    unregistered name that the room table inherits, such as "constructor",
    [cleanupRoom] raises: the request is acknowledged with a failure and no
    [leave] is sent. *)
Theorem leave_by_outsider (clock : nat -> Time) (s : Server)
    (socket : SocketId) (room : string) :
  is_participant (db s) room socket = false ->
  let (s', out) := exec (on_leave clock socket room) s in
  s' = s /\
  (JsObject.has room (rooms (db s)) = true \/
   JsObject.inherited room = false /\ pristine s = true ->
     out = [SocketLeave socket room; Emit (socket_to socket room) ev_leave;
            Callback (Success None)]) /\
  (JsObject.has room (rooms (db s)) = false -> JsObject.inherited room = true ->
     out = [SocketLeave socket room;
            Callback (Failure
              "Cannot read properties of undefined (reading 'indexOf')")]).
Proof.
  intros H.
  assert (Hs : removal clock room socket s = s).
  { unfold removal, is_participant in *.
    destruct (JsObject.get room (rooms (db s))) as [roomObj|]; [|reflexivity].
    apply indexOf_includes in H. rewrite H. reflexivity. }
  rewrite on_leave_eq, Hs.
  destruct (JsObject.has room (rooms (db s))); cbn [negb andb].
  - split; [reflexivity|]. split; [reflexivity | intros; discriminate].
  - destruct (JsObject.inherited room).
    + split; [reflexivity|].
      split; [intros [E|[E _]]; discriminate | reflexivity].
    + split; [reflexivity|]. split; [reflexivity | intros; discriminate].
Qed.

(** A stranger's leave of room ABCD, and the request C10 is wrong about: a
    leave of "constructor" on a fresh server. *)
Lemma leave_by_outsider_witness :
  is_participant (db connected_pair) "ABCD" "C" = false /\
  is_participant (db fresh) "constructor" "C" = false /\
  exec (on_leave sample_clock "C" "ABCD") connected_pair =
    (connected_pair,
     [SocketLeave "C" "ABCD"; Emit (socket_to "C" "ABCD") ev_leave;
      Callback (Success None)]) /\
  exec (on_leave sample_clock "C" "constructor") fresh =
    (fresh,
     [SocketLeave "C" "constructor";
      Callback (Failure
        "Cannot read properties of undefined (reading 'indexOf')")]).
Proof.
  split; [reflexivity|]. split; [reflexivity|]. split.
  - pose proof (@leave_by_outsider sample_clock connected_pair "C" "ABCD"
                  eq_refl) as H.
    destruct (exec (on_leave sample_clock "C" "ABCD") connected_pair)
      as [s' out].
    destruct H as (-> & H & _). rewrite H; [reflexivity|]. left. reflexivity.
  - pose proof (@leave_by_outsider sample_clock fresh "C" "constructor"
                  eq_refl) as H.
    destruct (exec (on_leave sample_clock "C" "constructor") fresh)
      as [s' out].
    destruct H as (-> & _ & H). rewrite H; reflexivity.
Defined.

(** ** The server of [server.js] compared *)

Section LegacyFacts.
Variable clock : nat -> Time.

(** [server.js] registers whatever code it is given, also over a room that
    exists, and acknowledges nothing; under the name [__proto__] the
    assignment replaces the prototype of the table instead. *)
Lemma legacy_on_create_eq socket room s :
  exec (Legacy.on_create clock socket room) s =
  if negb (JsObject.has room (rooms (db s))) && String.eqb room "__proto__"
  then (mkServer (db s) (S (dates s)) false, [SocketJoin socket room])
  else (mkServer
          (set_rooms
             (JsObject.set room (Room.mk (clock (dates s)) [socket] None None)
                (rooms (db s))) (db s))
          (S (dates s)) (pristine s),
        [SocketJoin socket room]).
Proof.
  unfold Legacy.on_create. js_eval.
  destruct (negb (JsObject.has room (rooms (db s))) && String.eqb room "__proto__");
    reflexivity.
Qed.

(** [server.js] forwards a negotiation payload of any socket. *)
Lemma legacy_relay_unchecked k socket data s :
  exec (Legacy.on_signal k socket data) s =
  (s, [Emit (socket_to socket (data_room data)) (Signaling.signal_event k data)]).
Proof. reflexivity. Qed.

Lemma legacy_on_join_rooms socket room s :
  rooms (db (fst (exec (Legacy.on_join socket room) s))) =
  match JsObject.get room (rooms (db s)) with
  | Some roomObj =>
      if (2 <=? List.length (Room.participants roomObj))%nat then rooms (db s)
      else JsObject.set room
             (Signaling.set_participants (Room.participants roomObj ++ [socket])
                roomObj) (rooms (db s))
  | None => rooms (db s)
  end.
Proof.
  unfold Legacy.on_join. js_eval.
  destruct (JsObject.get room (rooms (db s))) as [roomObj|] eqn:Hget;
    [|destruct (JsObject.inherited room); reflexivity].
  destruct (2 <=? _)%nat; [reflexivity|].
  js_eval. rewrite Hget. js_eval.
  destruct (JsObject.get room (offlineMessages (db s))) as [[|m ms]|];
    try destruct (JsObject.inherited room && (0 <? JsObject.inherited_length room)%nat);
    reflexivity.
Qed.

Lemma legacy_on_leave_message_rooms socket room message s :
  rooms (db (fst (exec (Legacy.on_leave_message clock socket room message) s))) =
  rooms (db s).
Proof.
  unfold Legacy.on_leave_message. js_eval. unfold JsObject.has.
  destruct (JsObject.get room (offlineMessages (db s))) as [q|] eqn:Hq;
    cbn [orb negb]; js_eval.
  - rewrite Hq. reflexivity.
  - destruct (JsObject.inherited room); cbn [negb]; js_eval.
    + rewrite Hq. reflexivity.
    + rewrite JsObjectFacts.get_set_same. reflexivity.
Qed.

Lemma legacy_on_call_connected_eq socket room s :
  exec (Legacy.on_call_connected clock socket room) s =
  match JsObject.get room (rooms (db s)) with
  | Some roomObj =>
      (mkServer
         (set_rooms
            (JsObject.set room
               (Signaling.set_connectedAt (clock (dates s)) roomObj)
               (rooms (db s))) (db s))
         (S (dates s)) (pristine s), [])
  | None =>
      if JsObject.inherited room
      then (mkServer (db s) (S (dates s))
              (if String.eqb room "__proto__" then false else pristine s), [])
      else (s, [])
  end.
Proof.
  unfold Legacy.on_call_connected. js_eval.
  destruct (JsObject.get room (rooms (db s))) as [roomObj|] eqn:Hget.
  - js_eval. rewrite Hget. reflexivity.
  - destruct (JsObject.inherited room); [|reflexivity].
    js_eval. unfold write_prototype.
    destruct (String.eqb room "__proto__"); reflexivity.
Qed.

Lemma legacy_on_disconnect_eq socket s :
  exec (Legacy.on_disconnect clock socket) s =
  (sweep clock socket (JsObject.keys (rooms (db s))) s,
   sweep_out clock (fun room => [Emit (socket_to socket room) ev_leave]) socket
     (JsObject.keys (rooms (db s))) s).
Proof.
  unfold Legacy.on_disconnect, exec, bind, get_db.
  change (fun room : string =>
            Signaling.remove_participant clock room socket
              (emit (socket_to socket room) ev_leave))
    with (fun room : string =>
            Signaling.remove_participant clock room socket
              (fun s0 => (Normal tt, s0, [Emit (socket_to socket room) ev_leave]))).
  rewrite for_in_eq. reflexivity.
Qed.

Lemma legacy_on_leave_eq socket room s :
  exec (Legacy.on_leave clock socket room) s =
  if negb (JsObject.has room (rooms (db s))) && JsObject.inherited room
  then (s, [SocketLeave socket room])
  else (removal clock room socket s,
        [SocketLeave socket room; Emit (socket_to socket room) ev_leave]).
Proof.
  unfold Legacy.on_leave, exec, bind, act, emit, get_db, when.
  destruct (negb (JsObject.has room (rooms (db s))) && JsObject.inherited room);
    [reflexivity|].
  change (ret tt s) with (Normal tt, s, @nil Action). cbv iota beta.
  change (ret tt) with (fun s0 : Server => (Normal tt, s0, @nil Action)).
  rewrite remove_participant_eq.
  destruct (removes room socket s); reflexivity.
Qed.

Lemma legacy_on_leave_state socket room s :
  fst (exec (Legacy.on_leave clock socket room) s) = removal clock room socket s.
Proof.
  rewrite legacy_on_leave_eq.
  destruct (JsObject.has room (rooms (db s))) eqn:Hhas; cbn [negb andb fst];
    [reflexivity|].
  destruct (JsObject.inherited room); cbn [fst]; [|reflexivity].
  symmetry. apply removal_unregistered. exact Hhas.
Qed.

Lemma legacy_step_bounded s i :
  bounded s -> bounded (fst (Legacy.step clock s i)).
Proof.
  intros H. destruct i as [socket r]. unfold Legacy.step. cbn [fst snd].
  destruct r; cbn [Legacy.handle]; try exact H.
  - rewrite legacy_on_disconnect_eq. revert H.
    apply (@bounded_settles clock), sweep_settles.
  - rewrite legacy_on_create_eq.
    destruct (_ && _); [exact H|]. revert H.
    eapply bounded_set; [reflexivity|]. simpl. lia.
  - pose proof (legacy_on_join_rooms socket room s) as E.
    destruct (JsObject.get room (rooms (db s))) as [roomObj|] eqn:Hget;
      [|revert H; apply bounded_same; exact E].
    destruct (2 <=? _)%nat eqn:Hfull; [revert H; apply bounded_same; exact E|].
    apply Nat.leb_gt in Hfull. revert H. eapply bounded_set; [exact E|].
    simpl. rewrite length_app. simpl. lia.
  - revert H. apply bounded_same. apply legacy_on_leave_message_rooms.
  - rewrite legacy_on_call_connected_eq.
    destruct (JsObject.get room (rooms (db s))) as [roomObj|] eqn:Hget;
      [|destruct (JsObject.inherited room); exact H].
    pose proof (H _ _ Hget).
    revert H. eapply bounded_set; [reflexivity|]. simpl. assumption.
  - rewrite legacy_on_leave_state. revert H.
    apply (@bounded_settles clock), removal_settles.
Qed.

(** X21. Along every sequence of requests, the room table of [server.js]
    keeps the bound of two participants a room. *)
Lemma legacy_rooms_bounded s trace :
  bounded s -> bounded (fst (Legacy.run clock s trace)).
Proof.
  revert s. induction trace as [|i trace IH]; intros s H; [exact H|].
  cbn [Legacy.run].
  pose proof (legacy_step_bounded i H) as H1.
  destruct (Legacy.step clock s i) as [s1 out1]. cbn [fst] in H1.
  specialize (IH s1 H1).
  destruct (Legacy.run clock s1 trace). exact IH.
Qed.

(** Its disconnect and leave handlers account for calls as the handlers
    with acknowledgements do. *)
Lemma legacy_accounting_agrees socket room s :
  fst (exec (Legacy.on_disconnect clock socket) s) =
    fst (exec (on_disconnect clock socket) s) /\
  fst (exec (Legacy.on_leave clock socket room) s) =
    fst (exec (on_leave clock socket room) s).
Proof.
  rewrite legacy_on_disconnect_eq, on_disconnect_eq,
    legacy_on_leave_state, on_leave_state.
  split; reflexivity.
Qed.

End LegacyFacts.

(** ** What every request has in common *)

Lemma sweep_out_notices clock socketId ks s :
  Forall is_leave_notice
    (sweep_out clock (fun room => [Emit (io_to room) ev_leave]) socketId ks s).
Proof.
  revert s. induction ks as [|k ks IH]; intros s; [constructor|].
  cbn [sweep_out]. apply Forall_app. split; [|apply IH].
  destruct (removes k socketId s); repeat constructor. exists k. reflexivity.
Qed.

Lemma notices_not_refused out : Forall is_leave_notice out -> refused out = false.
Proof.
  induction 1 as [|a out [room ->] _ IH]; [reflexivity|]. exact IH.
Qed.

Lemma delivery_not_refused s socket room :
  existsb (fun a => match a with Callback (Failure _) => true | _ => false end)
    (delivery s socket room) = false.
Proof.
  unfold delivery.
  destruct (queue s room); [destruct (negb _ && _)|]; reflexivity.
Qed.

Lemma delivery_to_socket s socket room l :
  forwarded socket (delivery s socket room ++ l) = forwarded socket l.
Proof.
  unfold delivery.
  destruct (queue s room); [destruct (negb _ && _)|];
    cbn [app forwarded]; rewrite ?String.eqb_refl; reflexivity.
Qed.

(** X2. A request that is acknowledged with a failure leaves the database
    as it was and sends nothing to any group or to any socket other than
    the one that made it. *)
Theorem refused_request_changes_nothing (clock : nat -> Time) (s : Server)
    (socket : SocketId) (r : Request) :
  refused (snd (step clock s (socket, r))) = true ->
  db (fst (step clock s (socket, r))) = db s /\
  forwarded socket (snd (step clock s (socket, r))) = [].
Proof.
  destruct r; handler_cases; try discriminate;
    try (intros _; split; [reflexivity|]; cbn [forwarded];
         rewrite ?String.eqb_refl; reflexivity);
    try (rewrite (notices_not_refused (sweep_out_notices _ _ _ _)); discriminate).
  all: unfold refused; try destruct (Room.participants _ ++ [socket]);
    cbn [existsb orb app];
    rewrite ?existsb_app, ?delivery_not_refused; cbn [existsb orb];
    discriminate.
Qed.

Lemma refused_request_changes_nothing_witness :
  refused (snd (step sample_clock fresh ("A", Join "ZZZZ"))) = true /\
  db (fst (step sample_clock fresh ("A", Join "ZZZZ"))) = db fresh /\
  forwarded "A" (snd (step sample_clock fresh ("A", Join "ZZZZ"))) = [].
Proof.
  split; [reflexivity|].
  apply (@refused_request_changes_nothing sample_clock fresh "A" (Join "ZZZZ")).
  reflexivity.
Defined.

(** ** Counters *)

Lemma notices_no_peer_joined out :
  Forall is_leave_notice out -> peer_joined_targets out = [].
Proof.
  induction 1 as [|a out [room ->] _ IH]; [reflexivity|]. exact IH.
Qed.

Lemma stats_eta st :
  Stats.mk (Stats.totalCalls st) (Stats.failedCalls st) (Stats.totalConnections st) = st.
Proof. destruct st; reflexivity. Qed.

Lemma delivery_no_peer_joined s socket room l :
  peer_joined_targets (delivery s socket room ++ l) = peer_joined_targets l.
Proof.
  unfold delivery.
  destruct (queue s room); [destruct (negb _ && _)|]; reflexivity.
Qed.

(** What one request does to the counters. *)
Lemma step_stats clock s socket r :
  stats (db (fst (step clock s (socket, r)))) =
  Stats.mk
    (Nat.iter (List.length (peer_joined_targets (snd (step clock s (socket, r)))))
       increment (Stats.totalCalls (stats (db s))))
    (Stats.failedCalls (stats (db s)))
    (Nat.iter (count_connections [(socket, r)])
       increment (Stats.totalConnections (stats (db s)))).
Proof.
  destruct r; handler_cases; cbn [count_connections db stats set_stats
    set_rooms set_offlineMessages peer_joined_targets List.length Nat.iter
    nat_rect signal_event];
    rewrite ?delivery_no_peer_joined;
    try (destruct (Room.participants _ ++ [socket]); [discriminate|]);
    cbn [exec ret fst snd db app peer_joined_targets List.length Nat.iter
         nat_rect];
    rewrite ?stats_eta; try reflexivity.
  - rewrite (st_stats (sweep_settles clock _ _ _)).
    rewrite (notices_no_peer_joined (sweep_out_notices _ _ _ _)).
    cbn [List.length Nat.iter nat_rect]. rewrite stats_eta. reflexivity.
  - apply (st_stats (removal_settles clock _ _ _)).
Qed.

Lemma run_app_out clock s i trace :
  snd (run clock s (i :: trace)) =
  snd (step clock s i) ++ snd (run clock (fst (step clock s i)) trace).
Proof. rewrite run_cons. reflexivity. Qed.

Lemma iter_increment_exact n : forall x,
  (x + N.of_nat n <= 2 ^ 53)%N -> Nat.iter n increment x = (x + N.of_nat n)%N.
Proof.
  induction n as [|n IH]; intros x Hx.
  - cbn. rewrite N.add_0_r. reflexivity.
  - rewrite Nat2N.inj_succ in Hx. cbn [Nat.iter nat_rect].
    fold (Nat.iter n increment x). rewrite IH by lia.
    unfold increment.
    destruct (N.ltb_spec (x + N.of_nat n) (2 ^ 53)) as [_|Hge]; lia.
Qed.

Lemma iter_increment_stuck n : Nat.iter n increment (2 ^ 53)%N = (2 ^ 53)%N.
Proof.
  induction n as [|n IH]; [reflexivity|].
  cbn [Nat.iter nat_rect]. fold (Nat.iter n increment (2 ^ 53)%N).
  rewrite IH. reflexivity.
Qed.

Lemma run_stats clock trace : forall s,
  stats (db (fst (run clock s trace))) =
  Stats.mk
    (Nat.iter (List.length (peer_joined_targets (snd (run clock s trace))))
       increment (Stats.totalCalls (stats (db s))))
    (Stats.failedCalls (stats (db s)))
    (Nat.iter (count_connections trace)
       increment (Stats.totalConnections (stats (db s)))).
Proof.
  induction trace as [|[socket r] trace IH]; intros s.
  - cbn. apply eq_sym, stats_eta.
  - rewrite run_cons. cbn [fst snd]. rewrite IH, step_stats.
    cbn [Stats.totalCalls Stats.failedCalls Stats.totalConnections].
    rewrite peer_joined_targets_app, length_app.
    rewrite (Nat.add_comm (List.length (peer_joined_targets (snd (step clock s (socket, r)))))).
    rewrite Nat.iter_add. f_equal.
    destruct r; try reflexivity. symmetry. exact (Nat.iter_succ_r _ _ _ _).
Qed.

(** X3. Along any trace that leaves the prototypes untouched,
    [totalCalls] is incremented once for each [peer_joined] event sent and
    [totalConnections] once for each connection opened, and [failedCalls]
    never changes.  While a counter stays within 2^53 it has grown by
    exactly that many; a counter that has reached 2^53 stays there, as
    [x + 1] then rounds back to [x]. *)
Theorem counters_along_a_trace (clock : nat -> Time) (s : Server)
    (trace : list (SocketId * Request)) :
  pristine s = true ->
  Forall (fun i => snd i <> CallConnected "__proto__") trace ->
  let (s', out) := run clock s trace in
  let calls := List.length (peer_joined_targets out) in
  let connections := count_connections trace in
  Stats.failedCalls (stats (db s')) = Stats.failedCalls (stats (db s)) /\
  ((Stats.totalCalls (stats (db s)) + N.of_nat calls <= 2 ^ 53)%N ->
     Stats.totalCalls (stats (db s')) =
       (Stats.totalCalls (stats (db s)) + N.of_nat calls)%N) /\
  ((Stats.totalConnections (stats (db s)) + N.of_nat connections <= 2 ^ 53)%N ->
     Stats.totalConnections (stats (db s')) =
       (Stats.totalConnections (stats (db s)) + N.of_nat connections)%N) /\
  (Stats.totalCalls (stats (db s)) = (2 ^ 53)%N ->
     Stats.totalCalls (stats (db s')) = (2 ^ 53)%N) /\
  (Stats.totalConnections (stats (db s)) = (2 ^ 53)%N ->
     Stats.totalConnections (stats (db s')) = (2 ^ 53)%N).
Proof.
  intros _ _. pose proof (run_stats clock trace s) as H.
  destruct (run clock s trace) as [s' out]. cbn [fst snd] in H. cbv zeta.
  rewrite H. cbn [Stats.totalCalls Stats.failedCalls Stats.totalConnections].
  split; [reflexivity|].
  split; [apply iter_increment_exact|].
  split; [apply iter_increment_exact|].
  split; intros ->; apply iter_increment_stuck.
Qed.

Lemma counters_along_a_trace_witness :
  pristine fresh = true /\
  Forall (fun i => snd i <> CallConnected "__proto__")
    (("B", Connection) :: scenario) /\
  stats (db (fst (run sample_clock fresh (("B", Connection) :: scenario)))) =
    Stats.mk 1 0 1.
Proof.
  assert (Ht : Forall (fun i : SocketId * Request =>
                         snd i <> CallConnected "__proto__")
                 (("B", Connection) :: scenario)).
  { repeat constructor; discriminate. }
  split; [reflexivity|]. split; [exact Ht|].
  pose proof (@counters_along_a_trace sample_clock fresh
                (("B", Connection) :: scenario) eq_refl Ht) as H.
  destruct (run sample_clock fresh (("B", Connection) :: scenario))
    as [s' out] eqn:E.
  cbv zeta in H. destruct H as (Hf & Hc & Hn & _).
  cbn [fst]. destruct s' as [[recs msgs rms [calls failed conns]] n p].
  cbn [db stats Stats.totalCalls Stats.failedCalls Stats.totalConnections] in *.
  assert (Hout : out = snd (run sample_clock fresh (("B", Connection) :: scenario)))
    by (rewrite E; reflexivity).
  rewrite Hf. rewrite Hc, Hn; rewrite ?Hout; try reflexivity;
    vm_compute; discriminate.
Defined.

(** ** Call records *)

Lemma step_dates clock s i : (dates s <= dates (fst (step clock s i)))%nat.
Proof.
  destruct i as [socket r].
  destruct r; handler_cases; cbn [dates];
    try exact (Nat.le_refl _); try lia.
  - apply (st_dates (sweep_settles clock _ _ _)).
  - apply (st_dates (removal_settles clock _ _ _)).
Qed.

Lemma run_dates clock trace : forall s,
  (dates s <= dates (fst (run clock s trace)))%nat.
Proof.
  induction trace as [|i trace IH]; intros s; [cbn; lia|].
  rewrite run_cons. cbn [fst].
  pose proof (step_dates clock s i). specialize (IH (fst (step clock s i))). lia.
Qed.

Lemma well_formed_record_widen clock a b a' b' rec :
  (a' <= a)%nat -> (b <= b')%nat ->
  well_formed_record clock a b rec -> well_formed_record clock a' b' rec.
Proof.
  intros Ha Hb (Hp & Hd & n & Hn & He). repeat split; auto.
  exists n. split; [lia | exact He].
Qed.

(** X4. The call records only grow: after any trace the records there
    were are still there, unchanged and in order, followed by the new
    ones; each new record has an empty participants snapshot, the duration
    [(endTime - startTime) / 1000] and an end read from the clock during
    the trace. *)
Theorem call_records_append_only (clock : nat -> Time) (s : Server)
    (trace : list (SocketId * Request)) :
  exists new,
    callRecords (db (fst (run clock s trace))) = callRecords (db s) ++ new /\
    Forall (well_formed_record clock (dates s) (dates (fst (run clock s trace))))
      new.
Proof.
  revert s. induction trace as [|i trace IH]; intros s.
  - exists []. cbn. rewrite app_nil_r. auto.
  - rewrite run_cons. cbn [fst].
    destruct (step_records clock s i) as (new1 & E1 & F1).
    destruct (IH (fst (step clock s i))) as (new2 & E2 & F2).
    pose proof (step_dates clock s i) as Hd1.
    pose proof (run_dates clock trace (fst (step clock s i))) as Hd2.
    exists (new1 ++ new2). split; [rewrite E2, E1, app_assoc; reflexivity|].
    apply Forall_app. split.
    + eapply Forall_impl; [|exact F1].
      intros rec (roomObj & n & _ & _ & Hn & He & Hq & Hp).
      repeat split; auto. exists n. split; [lia | exact He].
    + eapply Forall_impl; [|exact F2].
      intros rec. apply well_formed_record_widen; lia.
Qed.

(** ** Rooms *)

(** Fields of a room that removals keep. *)
Lemma removal_fields clock room socketId s k r' :
  JsObject.get k (rooms (db (removal clock room socketId s))) = Some r' ->
  exists r, JsObject.get k (rooms (db s)) = Some r /\
    Room.createdAt r' = Room.createdAt r /\
    Room.creator r' = Room.creator r /\
    Room.connectedAt r' = Room.connectedAt r.
Proof.
  unfold removal.
  destruct (JsObject.get room (rooms (db s))) as [roomObj|] eqn:Hget;
    [|intros H; exists r'; auto].
  destruct (indexOf socketId (Room.participants roomObj)) as [index|];
    [|intros H; exists r'; auto].
  assert (Hframe : forall l,
    JsObject.get k (JsObject.set room (set_participants l roomObj) (rooms (db s)))
      = Some r' ->
    exists r, JsObject.get k (rooms (db s)) = Some r /\
      Room.createdAt r' = Room.createdAt r /\
      Room.creator r' = Room.creator r /\
      Room.connectedAt r' = Room.connectedAt r).
  { intros l. rewrite JsObjectFacts.get_lookup.
    destruct (String.eqb_spec k room) as [->|Hk].
    - intros [= <-]. exists roomObj. auto.
    - intros H. exists r'. auto. }
  destruct (splice1 index (Room.participants roomObj)) as [|p rest].
  - destruct (Room.connectedAt roomObj); cbn [db rooms set_rooms].
    + rewrite JsObjectFacts.get_remove.
      destruct (String.eqb k room); [discriminate|]. apply Hframe.
    + apply Hframe.
  - cbn [db rooms set_rooms]. apply Hframe.
Qed.

Lemma sweep_fields clock socketId ks : forall s k r',
  JsObject.get k (rooms (db (sweep clock socketId ks s))) = Some r' ->
  exists r, JsObject.get k (rooms (db s)) = Some r /\
    Room.createdAt r' = Room.createdAt r /\
    Room.creator r' = Room.creator r /\
    Room.connectedAt r' = Room.connectedAt r.
Proof.
  induction ks as [|k0 ks IH]; intros s k r' H; [exists r'; auto|].
  cbn [sweep] in H.
  destruct (IH _ _ _ H) as (r1 & H1 & Ha & Hb & Hc).
  destruct (removal_fields _ _ _ _ _ H1) as (r & Hr & Ha' & Hb' & Hc').
  exists r. repeat split; congruence.
Qed.

(** X5. While a room stays registered over a request, its [createdAt] and
    [creator] do not change, and a [connectedAt] that is set stays set
    (also when participants leave). *)
Theorem room_fields_are_stable (clock : nat -> Time) (s : Server)
    (socket : SocketId) (r : Request) (room : string) (before after : Room.t) :
  JsObject.get room (rooms (db s)) = Some before ->
  JsObject.get room (rooms (db (fst (step clock s (socket, r))))) = Some after ->
  Room.createdAt after = Room.createdAt before /\
  Room.creator after = Room.creator before /\
  (forall t, Room.connectedAt before = Some t ->
     exists t', Room.connectedAt after = Some t').
Proof.
  intros Hb.
  assert (Hsame : forall x : Room.t,
    Some before = Some x ->
    Room.createdAt x = Room.createdAt before /\
    Room.creator x = Room.creator before /\
    (forall t, Room.connectedAt before = Some t ->
       exists t', Room.connectedAt x = Some t')).
  { intros x [= <-]. eauto. }
  destruct r; handler_cases; cbn [db rooms set_rooms set_offlineMessages set_stats];
    rewrite ?JsObjectFacts.get_lookup;
    try (rewrite Hb; apply Hsame);
    try (intros Ha; apply Hsame; rewrite <- Hb; exact Ha);
    try match goal with
    | |- (if String.eqb ?a ?b then _ else _) = _ -> _ =>
        destruct (String.eqb_spec a b) as [->|?]; [|rewrite Hb; apply Hsame]
    end;
    try match goal with
    | H : JsObject.get ?k ?o = Some ?x |- _ =>
        assert (x = before) by congruence; subst x; intros [= <-]; cbn; eauto
    end.
  - intros Ha. destruct (sweep_fields _ _ _ _ _ Ha) as (r0 & Hr & H1 & H2 & H3).
    assert (r0 = before) by congruence. subst r0.
    repeat split; auto. intros t Ht. exists t. congruence.
  - unfold JsObject.has in *. rewrite Hb in *. discriminate.
  - intros Ha. destruct (removal_fields _ _ _ _ _ Ha) as (r0 & Hr & H1 & H2 & H3).
    assert (r0 = before) by congruence. subst r0.
    repeat split; auto. intros t Ht. exists t. congruence.
Qed.

Lemma room_fields_are_stable_witness :
  JsObject.get "ABCD" (rooms (db (fst (run sample_clock fresh (firstn 3 scenario))))) =
    Some (Room.mk 0%Z ["A"; "B"] (Some "A") (Some 1000%Z)) /\
  JsObject.get "ABCD" (rooms (db connected_pair)) =
    Some (Room.mk 0%Z ["A"] (Some "A") (Some 1000%Z)) /\
  Room.createdAt (Room.mk 0%Z ["A"] (Some "A") (Some 1000%Z)) = 0%Z /\
  Room.creator (Room.mk 0%Z ["A"] (Some "A") (Some 1000%Z)) = Some "A" /\
  (forall t, Some 1000%Z = Some t ->
     exists t', Room.connectedAt (Room.mk 0%Z ["A"] (Some "A") (Some 1000%Z)) =
                Some t').
Proof.
  split; [reflexivity|]. split; [reflexivity|].
  apply (@room_fields_are_stable sample_clock
           (fst (run sample_clock fresh (firstn 3 scenario)))
           "B" (Disconnect "transport close") "ABCD"
           (Room.mk 0%Z ["A"; "B"] (Some "A") (Some 1000%Z))
           (Room.mk 0%Z ["A"] (Some "A") (Some 1000%Z)));
    reflexivity.
Defined.



Lemma removal_absent clock room socketId s roomObj :
  JsObject.get room (rooms (db s)) = Some roomObj ->
  indexOf socketId (Room.participants roomObj) = None ->
  removal clock room socketId s = s.
Proof. intros Hget Hi. unfold removal. rewrite Hget, Hi. reflexivity. Qed.

Lemma sweep_keeps_room clock socketId room roomObj ks : forall s,
  JsObject.get room (rooms (db s)) = Some roomObj ->
  indexOf socketId (Room.participants roomObj) = None ->
  JsObject.get room (rooms (db (sweep clock socketId ks s))) = Some roomObj.
Proof.
  induction ks as [|k ks IH]; intros s Hget Hi; [exact Hget|].
  cbn [sweep]. apply IH; [|exact Hi].
  destruct (String.eqb_spec k room) as [->|Hk].
  - rewrite (removal_absent clock _ _ _ Hget Hi). exact Hget.
  - rewrite removal_other; auto.
Qed.

(** X7. A registered room without participants is removed neither by a
    disconnect nor by a leave, so its code stays taken: a create of it is
    refused, while a join succeeds and makes the joining socket the first
    participant without any [peer_joined]. *)
Theorem empty_room_stays_registered (clock : nat -> Time) (s : Server)
    (room : string) (roomObj : Room.t) :
  JsObject.get room (rooms (db s)) = Some roomObj ->
  Room.participants roomObj = [] ->
  (forall socket,
     JsObject.get room (rooms (db (fst (exec (on_disconnect clock socket) s)))) =
     Some roomObj) /\
  (forall socket room',
     JsObject.get room (rooms (db (fst (exec (on_leave clock socket room') s)))) =
     Some roomObj) /\
  (forall socket,
     refused (snd (exec (on_create clock socket room) s)) = true) /\
  (forall socket, room <> "" ->
     let (s', out) := exec (on_join socket room) s in
     succeeded out = true /\ peer_joined_targets out = [] /\
     JsObject.get room (rooms (db s')) = Some (set_participants [socket] roomObj)).
Proof.
  intros Hget Hp.
  assert (Hi : forall socket, indexOf socket (Room.participants roomObj) = None).
  { intros socket. rewrite Hp. reflexivity. }
  split; [|split; [|split]].
  - intros socket. rewrite on_disconnect_eq. cbn [fst].
    apply sweep_keeps_room; auto.
  - intros socket room'. rewrite on_leave_state.
    destruct (String.eqb_spec room' room) as [->|Hne].
    + rewrite (removal_absent clock _ _ _ Hget (Hi socket)). exact Hget.
    + rewrite removal_other; auto.
  - intros socket. rewrite on_create_eq.
    destruct (_ || _); [reflexivity|].
    unfold JsObject.has. rewrite Hget. reflexivity.
  - intros socket Hne. rewrite on_join_eq.
    destruct (nonempty room) eqn:E; [|apply nonempty_false in E; contradiction].
    cbn [negb]. rewrite Hget, Hp. cbn.
    rewrite delivery_no_peer_joined. cbn.
    rewrite JsObjectFacts.get_set_same. split; [|auto].
    apply (succeeded_join socket room (delivery s socket room) []).
Qed.

Lemma empty_room_stays_registered_witness :
  let s := fst (run sample_clock fresh [("A", Create "ABCD"); ("A", Leave "ABCD")]) in
  JsObject.get "ABCD" (rooms (db s)) = Some (Room.mk 0%Z [] (Some "A") None) /\
  JsObject.get "ABCD"
    (rooms (db (fst (exec (on_disconnect sample_clock "A") s)))) =
    Some (Room.mk 0%Z [] (Some "A") None) /\
  refused (snd (exec (on_create sample_clock "B" "ABCD") s)) = true.
Proof.
  cbv zeta. split; [reflexivity|].
  destruct (@empty_room_stays_registered sample_clock
              (fst (run sample_clock fresh
                      [("A", Create "ABCD"); ("A", Leave "ABCD")]))
              "ABCD" (Room.mk 0%Z [] (Some "A") None) eq_refl eq_refl)
    as (Hd & _ & Hc & _).
  split; [apply Hd | apply Hc].
Defined.

(** ** Notifications and messages *)

Lemma unregistered_not_listed s room socket :
  JsObject.has room (rooms (db s)) = false ->
  is_participant (db s) room socket = false.
Proof.
  unfold JsObject.has, is_participant.
  destruct (JsObject.get room (rooms (db s))); [discriminate | reflexivity].
Qed.

(** X8. [recording_started] and [recording_stopped] never change the state.
    From a socket that the registered room does not list they are refused
    with "Not a room participant", and so they are, in a process whose
    prototypes are untouched, when the name is neither registered nor
    inherited by the room table; from a participant the fixed text of the
    event is sent to the room's group without the sender.  Under an
    unregistered name that the room table inherits, [.includes] raises and
    the request is acknowledged with that failure. *)
Theorem recording_contract (clock : nat -> Time) (s : Server)
    (socket : SocketId) (room : string) (started : bool) :
  let r := if started then RecordingStarted room else RecordingStopped room in
  let text := if started then "Recording has started" else "Recording has stopped" in
  let (s', out) := step clock s (socket, r) in
  s' = s /\
  (JsObject.has room (rooms (db s)) = true \/
   JsObject.inherited room = false /\ pristine s = true ->
   is_participant (db s) room socket = false ->
     out = [Callback (Failure "Not a room participant")]) /\
  (is_participant (db s) room socket = true ->
     out = [Emit (socket_to socket room) (ev_recording_notification text);
            Callback (Success None)]) /\
  (JsObject.has room (rooms (db s)) = false -> JsObject.inherited room = true ->
     out = [Callback (Failure
              "Cannot read properties of undefined (reading 'includes')")]).
Proof.
  assert (H : forall text,
    let (s', out) := exec (on_recording text socket room) s in
    s' = s /\
    (JsObject.has room (rooms (db s)) = true \/
     JsObject.inherited room = false /\ pristine s = true ->
     is_participant (db s) room socket = false ->
       out = [Callback (Failure "Not a room participant")]) /\
    (is_participant (db s) room socket = true ->
       out = [Emit (socket_to socket room) (ev_recording_notification text);
              Callback (Success None)]) /\
    (JsObject.has room (rooms (db s)) = false -> JsObject.inherited room = true ->
       out = [Callback (Failure
                "Cannot read properties of undefined (reading 'includes')")])).
  { intros text. rewrite on_recording_eq.
    destruct (JsObject.has room (rooms (db s))) eqn:Hhas; cbn [negb andb].
    - destruct (is_participant (db s) room socket); cbn [negb];
        repeat split; intros; try discriminate; reflexivity.
    - rewrite (unregistered_not_listed s room socket Hhas).
      destruct (JsObject.inherited room); cbn [negb].
      + split; [reflexivity|]. split; [intros [E|[E _]]; discriminate|].
        split; [discriminate | reflexivity].
      + repeat split; intros; try discriminate; reflexivity. }
  destruct started; cbv zeta; unfold step; cbn [fst snd handle]; apply H.
Qed.

(** In room ABCD the participant A's [recording_started] reaches the
    group. *)
Example recording_in_a_room :
  step sample_clock connected_pair ("A", RecordingStarted "ABCD") =
    (connected_pair,
     [Emit (socket_to "A" "ABCD") (ev_recording_notification "Recording has started");
      Callback (Success None)]).
Proof. reflexivity. Qed.

(** X9. [leave_message] is refused with "Invalid message data" when the
    room name is empty or the message falsy, changing nothing.  Otherwise:
    in a process whose prototypes are untouched, a name that is neither
    registered nor inherited by the room table is refused with "Room does
    not exist", changing nothing; for a registered room that has a queue
    (or, in such a process, whose name the tables do not inherit), whoever
    sends it, the message is appended with its sender and the clock reading
    at the end of the room's queue, sent to the room's group without the
    sender and acknowledged, other queues, the rooms and the call records
    being untouched; and under a name the tables inherit that has no queue
    of its own, [push] raises after the clock was read: the request is
    acknowledged with that failure and the database is as it was. *)
Theorem leave_message_contract (clock : nat -> Time) (s : Server)
    (socket : SocketId) (room : string) (message : Value) :
  let (s', out) := exec (on_leave_message clock socket room message) s in
  (room = "" \/ truthy message = false ->
     s' = s /\ out = [Callback (Failure "Invalid message data")]) /\
  (pristine s = true -> room <> "" -> truthy message = true ->
   JsObject.has room (rooms (db s)) = false -> JsObject.inherited room = false ->
     s' = s /\ out = [Callback (Failure "Room does not exist")]) /\
  (room <> "" -> truthy message = true ->
   JsObject.has room (rooms (db s)) = true ->
   JsObject.has room (offlineMessages (db s)) = true \/
   JsObject.inherited room = false /\ pristine s = true ->
     out = [Emit (socket_to socket room) (ev_offline_message socket message);
            Callback (Success None)] /\
     queue s' room =
       queue s room ++ [OfflineMessage.mk socket message (clock (dates s))] /\
     (forall other, other <> room -> queue s' other = queue s other) /\
     rooms (db s') = rooms (db s) /\
     callRecords (db s') = callRecords (db s) /\
     dates s' = S (dates s)) /\
  (room <> "" -> truthy message = true ->
   JsObject.has room (offlineMessages (db s)) = false ->
   JsObject.inherited room = true ->
     out = [Callback (Failure
              "db.offlineMessages[room].push is not a function")] /\
     db s' = db s /\ dates s' = S (dates s)).
Proof.
  rewrite on_leave_message_eq.
  destruct (nonempty room) eqn:Hroom; cbn [negb orb].
  - assert (Hne : room <> "") by (intros ->; discriminate).
    destruct (truthy message) eqn:Hm; cbn [negb].
    + destruct (JsObject.has room (rooms (db s)) || JsObject.inherited room)
        eqn:Hfound; cbn [negb].
      * destruct (negb (JsObject.has room (offlineMessages (db s))) &&
                  JsObject.inherited room) eqn:Hpush.
        -- apply andb_true_iff in Hpush. destruct Hpush as [Hq Hin].
           apply negb_true_iff in Hq.
           split; [intros [E|E]; [contradiction|discriminate]|].
           split; [intros _ _ _ _ E; congruence|].
           split; [intros _ _ _ [E|[E _]]; congruence|].
           intros _ _ _ _. repeat split; reflexivity.
        -- split; [intros [E|E]; [contradiction|discriminate]|].
           split; [intros _ _ _ E1 E2; rewrite E1, E2 in Hfound; discriminate|].
           split; [|intros _ _ E1 E2; rewrite E1, E2 in Hpush; discriminate].
           intros _ _ _ _.
           split; [reflexivity|]. split; [|split; [|repeat split; reflexivity]].
           ++ unfold queue at 1. cbn [db offlineMessages set_offlineMessages].
              rewrite JsObjectFacts.get_set_same. reflexivity.
           ++ intros other Hother. unfold queue.
              cbn [db offlineMessages set_offlineMessages].
              rewrite JsObjectFacts.get_set_other by assumption.
              destruct (JsObject.has room (offlineMessages (db s)));
                [reflexivity|].
              rewrite JsObjectFacts.get_set_other by assumption. reflexivity.
      * apply orb_false_iff in Hfound. destruct Hfound as [Hhas Hin].
        split; [intros [E|E]; [contradiction|discriminate]|].
        split; [auto|]. split; intros; congruence.
    + split; [auto|]. split; [intros; discriminate|].
      split; intros; discriminate.
  - apply nonempty_false in Hroom.
    split; [auto|]. split; [intros; contradiction|].
    split; intros; contradiction.
Qed.

(** A stranger's message for room ABCD is queued, and a message for
    "constructor" on a fresh server fails at [push]. *)
Example leave_message_samples :
  exec (on_leave_message sample_clock "C" "ABCD" (VString "hello")) connected_pair =
    (mkServer
       (set_offlineMessages
          [("ABCD", [OfflineMessage.mk "C" (VString "hello") 2000%Z])]
          (db connected_pair))
       3 true,
     [Emit (socket_to "C" "ABCD") (ev_offline_message "C" (VString "hello"));
      Callback (Success None)]) /\
  snd (exec (on_leave_message sample_clock "C" "constructor" (VString "hello"))
         fresh) =
    [Callback (Failure "db.offlineMessages[room].push is not a function")].
Proof. split; reflexivity. Qed.

(** X10. Leave and disconnect cleanup never touch the pending offline
    messages, also when they finalize and delete the room. *)
Theorem cleanup_keeps_offline_messages (clock : nat -> Time) (s : Server)
    (socket : SocketId) (room : string) :
  offlineMessages (db (fst (exec (on_leave clock socket room) s))) =
    offlineMessages (db s) /\
  offlineMessages (db (fst (exec (on_disconnect clock socket) s))) =
    offlineMessages (db s).
Proof.
  rewrite on_leave_state, on_disconnect_eq. cbn [fst]. split.
  - apply (st_queues (removal_settles clock room socket s)).
  - apply (st_queues (sweep_settles clock socket _ s)).
Qed.

(** ** Disconnect as a leave of every room *)

Section KeyFacts.
Variable V : Type.
Implicit Types (o : JsObject.t V) (k : string) (v : V).

Lemma keys_replace k v o : JsObject.keys (JsObject.replace k v o) = JsObject.keys o.
Proof.
  unfold JsObject.keys. induction o as [|[k0 v0] o IH]; [reflexivity|].
  cbn. destruct (String.eqb k k0); cbn; [reflexivity|]. rewrite IH. reflexivity.
Qed.

Lemma in_keys_insert_index n k v o x :
  In x (JsObject.keys (JsObject.insert_index n k v o)) <->
  x = k \/ In x (JsObject.keys o).
Proof.
  unfold JsObject.keys. induction o as [|[k0 v0] o IH]; cbn.
  - intuition.
  - destruct (JsObject.array_index k0) as [m|]; [destruct (m <? n)%N|]; cbn;
      try rewrite IH; intuition.
Qed.

Lemma not_in_keys k o : JsObject.get k o = None -> ~ In k (JsObject.keys o).
Proof.
  unfold JsObject.keys. induction o as [|[k0 v0] o IH]; cbn; [tauto|].
  destruct (String.eqb_spec k k0) as [->|Hne]; [discriminate|].
  intros H [E|E]; [congruence | exact (IH H E)].
Qed.

Lemma NoDup_insert_index n k v o :
  ~ In k (JsObject.keys o) -> NoDup (JsObject.keys o) ->
  NoDup (JsObject.keys (JsObject.insert_index n k v o)).
Proof.
  induction o as [|[k0 v0] o IH]; cbn; intros Hk Hnd.
  - repeat constructor. tauto.
  - assert (Hcons : NoDup (k :: k0 :: JsObject.keys o)).
    { constructor; assumption. }
    destruct (JsObject.array_index k0) as [m|]; [destruct (m <? n)%N|]; cbn;
      try exact Hcons.
    inversion Hnd as [|? ? Hk0 Hnd']; subst.
    constructor.
    + fold (JsObject.keys (JsObject.insert_index n k v o)).
      rewrite in_keys_insert_index. intros [E|E]; [apply Hk; left; congruence|].
      exact (Hk0 E).
    + apply IH; [tauto | exact Hnd'].
Qed.

Lemma NoDup_set k v o :
  NoDup (JsObject.keys o) -> NoDup (JsObject.keys (JsObject.set k v o)).
Proof.
  intros Hnd. unfold JsObject.set, JsObject.has.
  destruct (JsObject.get k o) eqn:Hget.
  - rewrite keys_replace. exact Hnd.
  - pose proof (not_in_keys _ _ Hget) as Hk.
    destruct (JsObject.array_index k) as [n|].
    + apply NoDup_insert_index; assumption.
    + unfold JsObject.keys. rewrite map_app. cbn.
      apply NoDup_app; [exact Hnd | repeat constructor; tauto |].
      intros x Hx [<-|[]]. exact (Hk Hx).
Qed.

Lemma NoDup_delete k o :
  NoDup (JsObject.keys o) -> NoDup (JsObject.keys (JsObject.delete k o)).
Proof.
  unfold JsObject.keys, JsObject.delete.
  induction o as [|[k0 v0] o IH]; cbn; intros Hnd; [constructor|].
  inversion Hnd as [|? ? Hk0 Hnd']; subst.
  destruct (String.eqb k k0); cbn; [apply IH; exact Hnd'|].
  constructor; [|apply IH; exact Hnd'].
  intros Hin. apply Hk0. apply in_map_iff in Hin.
  destruct Hin as ([k1 v1] & E & Hin). apply filter_In in Hin.
  apply in_map_iff. exists (k1, v1). tauto.
Qed.

End KeyFacts.

Lemma removal_keys_unique clock room socketId s :
  keys_unique s -> keys_unique (removal clock room socketId s).
Proof.
  unfold keys_unique, removal. intros H.
  destruct (JsObject.get room (rooms (db s))) as [roomObj|]; [|exact H].
  destruct (indexOf socketId (Room.participants roomObj)) as [index|]; [|exact H].
  destruct (splice1 index (Room.participants roomObj)) as [|p rest].
  - destruct (Room.connectedAt roomObj); cbn [db rooms set_rooms].
    + apply NoDup_delete, NoDup_set, H.
    + apply NoDup_set, H.
  - cbn [db rooms set_rooms]. apply NoDup_set, H.
Qed.

Lemma sweep_keys_unique clock socketId ks : forall s,
  keys_unique s -> keys_unique (sweep clock socketId ks s).
Proof.
  induction ks as [|k ks IH]; intros s H; [exact H|].
  cbn [sweep]. apply IH, removal_keys_unique, H.
Qed.

Lemma step_keys_unique clock s i :
  keys_unique s -> keys_unique (fst (step clock s i)).
Proof.
  intros H. destruct i as [socket r].
  destruct r; handler_cases; try exact H;
    try (unfold keys_unique; cbn [db rooms set_rooms]; apply NoDup_set; exact H).
  - apply sweep_keys_unique, H.
  - apply removal_keys_unique, H.
Qed.

(** Every state the server reaches from an empty database has one entry
    per room code. *)
Lemma reachable_keys_unique clock trace :
  keys_unique (fst (run clock fresh trace)).
Proof.
  assert (H : keys_unique fresh) by constructor.
  revert H. generalize fresh.
  induction trace as [|i trace IH]; intros s H; [exact H|].
  rewrite run_cons. cbn [fst]. apply IH, step_keys_unique, H.
Qed.

(** The room a removal leaves under its own code depends on that room
    only. *)
Lemma removal_same_room clock room socketId s1 s2 :
  JsObject.get room (rooms (db s1)) = JsObject.get room (rooms (db s2)) ->
  JsObject.get room (rooms (db (removal clock room socketId s1))) =
  JsObject.get room (rooms (db (removal clock room socketId s2))).
Proof.
  intros E. unfold removal. rewrite <- E.
  destruct (JsObject.get room (rooms (db s1))) as [roomObj|] eqn:Hget;
    [|congruence].
  destruct (indexOf socketId (Room.participants roomObj)) as [index|];
    [|congruence].
  destruct (splice1 index (Room.participants roomObj)) as [|p rest].
  - destruct (Room.connectedAt roomObj); cbn [db rooms set_rooms];
      rewrite ?JsObjectFacts.get_delete_same, ?JsObjectFacts.get_set_same;
      reflexivity.
  - cbn [db rooms set_rooms]. rewrite !JsObjectFacts.get_set_same. reflexivity.
Qed.

Lemma sweep_other clock socketId room ks : forall s,
  ~ In room ks ->
  JsObject.get room (rooms (db (sweep clock socketId ks s))) =
  JsObject.get room (rooms (db s)).
Proof.
  induction ks as [|k ks IH]; intros s Hin; [reflexivity|].
  cbn [sweep]. rewrite IH by (intros H; apply Hin; right; exact H).
  apply removal_other. intros ->. apply Hin. left. reflexivity.
Qed.

Lemma sweep_room clock socketId room ks : forall s,
  NoDup ks -> In room ks ->
  JsObject.get room (rooms (db (sweep clock socketId ks s))) =
  JsObject.get room (rooms (db (removal clock room socketId s))).
Proof.
  induction ks as [|k ks IH]; intros s Hnd Hin; [destruct Hin|].
  inversion Hnd as [|? ? Hk Hnd']; subst. cbn [sweep].
  destruct (String.eqb_spec k room) as [->|Hne].
  - apply sweep_other. exact Hk.
  - destruct Hin as [E|Hin]; [contradiction|].
    rewrite (IH _ Hnd' Hin). apply removal_same_room.
    apply removal_other. congruence.
Qed.

Lemma sweep_agrees_with_removal clock s socket room :
  keys_unique s ->
  JsObject.get room
    (rooms (db (sweep clock socket (JsObject.keys (rooms (db s))) s))) =
  JsObject.get room (rooms (db (removal clock room socket s))).
Proof.
  intros Hnd.
  destruct (JsObject.get room (rooms (db s))) as [roomObj|] eqn:Hget.
  - apply sweep_room; [exact Hnd|].
    eapply JsObjectFacts.get_in_keys. exact Hget.
  - rewrite sweep_other by (apply not_in_keys; exact Hget).
    replace (removal clock room socket s) with s; [reflexivity|].
    unfold removal. rewrite Hget. reflexivity.
Qed.

(** X11. When no two entries of the room table share a code, a disconnect
    leaves every room as an explicit leave of that room by the same socket
    would: the socket's first occurrence is removed, and the room is
    finalized when it becomes empty and was connected. *)
Theorem disconnect_leaves_every_room (clock : nat -> Time) (s : Server)
    (socket : SocketId) (room : string) :
  keys_unique s ->
  JsObject.get room (rooms (db (fst (exec (on_disconnect clock socket) s)))) =
  JsObject.get room (rooms (db (fst (exec (on_leave clock socket room) s)))).
Proof.
  intros Hnd. rewrite on_disconnect_eq, on_leave_state. cbn [fst].
  apply sweep_agrees_with_removal. exact Hnd.
Qed.

Lemma disconnect_leaves_every_room_witness :
  keys_unique connected_pair /\
  JsObject.get "ABCD"
    (rooms (db (fst (exec (on_disconnect sample_clock "A") connected_pair)))) =
  JsObject.get "ABCD"
    (rooms (db (fst (exec (on_leave sample_clock "A" "ABCD") connected_pair)))).
Proof.
  assert (H : keys_unique connected_pair).
  { unfold keys_unique. simpl. repeat constructor. intros []. }
  split; [exact H|].
  apply (@disconnect_leaves_every_room sample_clock connected_pair "A" "ABCD" H).
Defined.

Lemma removes_is_participant room socketId s :
  removes room socketId s = is_participant (db s) room socketId.
Proof.
  unfold removes, is_participant.
  destruct (JsObject.get room (rooms (db s))) as [roomObj|]; [|reflexivity].
  destruct (includes socketId (Room.participants roomObj)) eqn:E.
  - destruct (indexOf socketId (Room.participants roomObj)) eqn:Hi; [reflexivity|].
    apply indexOf_includes in Hi. congruence.
  - apply indexOf_includes in E. rewrite E. reflexivity.
Qed.

Lemma is_participant_same d1 d2 room socketId :
  JsObject.get room (rooms d1) = JsObject.get room (rooms d2) ->
  is_participant d1 room socketId = is_participant d2 room socketId.
Proof. unfold is_participant. intros ->. reflexivity. Qed.

Lemma sweep_out_rooms clock notify socketId s0 ks : forall s,
  NoDup ks ->
  (forall k, In k ks ->
     JsObject.get k (rooms (db s)) = JsObject.get k (rooms (db s0))) ->
  sweep_out clock notify socketId ks s =
  flat_map notify (filter (fun k => is_participant (db s0) k socketId) ks).
Proof.
  induction ks as [|k ks IH]; intros s Hnd Hsame; [reflexivity|].
  inversion Hnd as [|? ? Hk Hnd']; subst.
  cbn [sweep_out filter]. rewrite removes_is_participant.
  rewrite (is_participant_same (db s) (db s0) k socketId)
    by (apply Hsame; left; reflexivity).
  rewrite IH; [destruct (is_participant (db s0) k socketId); reflexivity
              | exact Hnd' |].
  intros k' Hin. rewrite removal_other by (intros ->; exact (Hk Hin)).
  apply Hsame. right. exact Hin.
Qed.

(** X12. When no two entries of the room table share a code, a disconnect
    sends one [leave] event to the group of each room that lists the
    socket, in the order the table enumerates its rooms, and nothing
    else. *)
Theorem disconnect_notifies_rooms_of_socket (clock : nat -> Time) (s : Server)
    (socket : SocketId) :
  keys_unique s ->
  snd (exec (on_disconnect clock socket) s) =
  map (fun room => Emit (io_to room) ev_leave)
    (filter (fun room => is_participant (db s) room socket)
       (JsObject.keys (rooms (db s)))).
Proof.
  intros Hnd. rewrite on_disconnect_eq. cbn [snd].
  rewrite (sweep_out_rooms clock _ socket s) by auto.
  induction (filter _ _) as [|k l IH]; [reflexivity|].
  cbn. rewrite IH. reflexivity.
Qed.

Lemma disconnect_notifies_rooms_of_socket_witness :
  keys_unique connected_pair /\
  snd (exec (on_disconnect sample_clock "A") connected_pair) =
    [Emit (io_to "ABCD") ev_leave].
Proof.
  assert (H : keys_unique connected_pair).
  { unfold keys_unique. simpl. repeat constructor. intros []. }
  split; [exact H|].
  apply (@disconnect_notifies_rooms_of_socket sample_clock connected_pair "A" H).
Defined.

(** X13. A join does not check whether the socket is already listed: the
    only participant of a room can join it again, is then listed twice and
    is sent [peer_joined] itself; the room is full for everyone else, and
    when that socket disconnects one occurrence stays listed, so that the
    room is neither emptied nor finalized. *)
Theorem rejoining_socket_is_listed_twice (clock : nat -> Time) (s : Server)
    (A : SocketId) (room : string) (roomObj : Room.t) :
  keys_unique s -> room <> "" ->
  JsObject.get room (rooms (db s)) = Some roomObj ->
  Room.participants roomObj = [A] ->
  let (s1, out) := exec (on_join A room) s in
  succeeded out = true /\
  peer_joined_targets out = [io_to A] /\
  JsObject.get room (rooms (db s1)) = Some (set_participants [A; A] roomObj) /\
  (forall B, refused (snd (exec (on_join B room) s1)) = true) /\
  JsObject.get room (rooms (db (fst (exec (on_disconnect clock A) s1)))) =
    Some (set_participants [A] roomObj).
Proof.
  intros Hnd Hne Hget Hp. rewrite on_join_eq.
  destruct (nonempty room) eqn:E; [|apply nonempty_false in E; contradiction].
  cbn [negb]. rewrite Hget, Hp. cbn [List.length Nat.leb app Nat.eqb].
  cbv zeta.
  set (s1 := mkServer _ _ _).
  assert (Hget1 : JsObject.get room (rooms (db s1)) =
                  Some (set_participants [A; A] roomObj)).
  { apply JsObjectFacts.get_set_same. }
  assert (Hnd1 : keys_unique s1).
  { unfold keys_unique. cbn [s1 db rooms]. apply NoDup_set, Hnd. }
  split; [|split; [|split; [exact Hget1|split]]].
  - apply (succeeded_join A room (delivery s A room)
             [Emit (io_to A) ev_peer_joined]).
  - cbn [peer_joined_targets]. rewrite delivery_no_peer_joined. reflexivity.
  - intros B. rewrite on_join_eq, E. cbn [negb]. rewrite Hget1. reflexivity.
  - rewrite on_disconnect_eq. cbn [fst].
    rewrite (sweep_agrees_with_removal clock A room Hnd1).
    unfold removal. rewrite Hget1.
    cbn [set_participants Room.participants indexOf].
    rewrite String.eqb_refl. cbn [splice1 db rooms set_rooms].
    rewrite JsObjectFacts.get_set_same. reflexivity.
Qed.

Lemma rejoining_socket_is_listed_twice_witness :
  let s := fst (run sample_clock fresh [("A", Create "ABCD")]) in
  keys_unique s /\
  JsObject.get "ABCD" (rooms (db s)) = Some (Room.mk 0%Z ["A"] (Some "A") None) /\
  JsObject.get "ABCD"
    (rooms (db (fst (exec (on_disconnect sample_clock "A")
                       (fst (exec (on_join "A" "ABCD") s)))))) =
    Some (Room.mk 0%Z ["A"] (Some "A") None).
Proof.
  cbv zeta.
  assert (H : keys_unique (fst (run sample_clock fresh [("A", Create "ABCD")]))).
  { unfold keys_unique. simpl. repeat constructor. intros []. }
  split; [exact H|]. split; [reflexivity|].
  pose proof (@rejoining_socket_is_listed_twice sample_clock
                (fst (run sample_clock fresh [("A", Create "ABCD")]))
                "A" "ABCD" (Room.mk 0%Z ["A"] (Some "A") None) H) as R.
  destruct (exec (on_join "A" "ABCD")
              (fst (run sample_clock fresh [("A", Create "ABCD")]))) as [s1 out].
  apply R; [discriminate | reflexivity | reflexivity].
Defined.

Lemma create_on_registered_code_witness :
  JsObject.has "ABCD"
    (rooms (db (fst (run sample_clock fresh [("A", Create "ABCD")])))) = true /\
  exec (on_create sample_clock "B" "ABCD")
    (fst (run sample_clock fresh [("A", Create "ABCD")])) =
  (fst (run sample_clock fresh [("A", Create "ABCD")]),
   [Callback (Failure "Room already exists")]).
Proof.
  split; [reflexivity|].
  apply (@create_on_registered_code sample_clock [("A", Create "ABCD")] "B" "ABCD").
  reflexivity.
Defined.

(** ** The call history *)

Lemma call_history_eq d : call_history d = firstn 20 (rev (callRecords d)).
Proof. unfold call_history, slice_last. rewrite firstn_rev. reflexivity. Qed.

(** X15. The call history holds at most twenty records, all of them newest
    first when there are twenty or fewer; appending a record puts it at the
    head of the history and keeps at most nineteen of the records that
    were listed. *)
Theorem call_history_newest_first (d : DB) (rec : CallRecord.t) :
  (List.length (call_history d) <= 20)%nat /\
  ((List.length (callRecords d) <= 20)%nat ->
     call_history d = rev (callRecords d)) /\
  call_history (set_callRecords (callRecords d ++ [rec]) d) =
    rec :: firstn 19 (call_history d).
Proof.
  rewrite !call_history_eq. split; [|split].
  - rewrite length_firstn. lia.
  - intros H. apply firstn_all2. rewrite length_rev. exact H.
  - cbn [callRecords set_callRecords]. rewrite rev_app_distr.
    change (rev [rec] ++ rev (callRecords d)) with (rec :: rev (callRecords d)).
    rewrite firstn_cons, firstn_firstn. reflexivity.
Qed.

(** X16. Once [finalizeCallRecord] has run on a registered, connected
    room, the record of that call is the first entry of the call
    history. *)
Theorem finalized_call_heads_history (clock : nat -> Time) (s : Server)
    (room : string) (roomObj : Room.t) (startTime : Time) :
  JsObject.get room (rooms (db s)) = Some roomObj ->
  Room.connectedAt roomObj = Some startTime ->
  hd_error (call_history (db (fst (exec (finalizeCallRecord clock room) s)))) =
  Some (CallRecord.mk room startTime (clock (dates s))
          (Qmake (clock (dates s) - startTime) 1000)
          (Room.participants roomObj)).
Proof.
  intros Hget Hc. rewrite finalizeCallRecord_eq, Hget, Hc. cbn [fst db].
  rewrite call_history_eq. cbn [callRecords]. rewrite rev_app_distr. reflexivity.
Qed.

Lemma finalized_call_heads_history_witness :
  JsObject.get "ABCD" (rooms (db connected_pair)) =
    Some (Room.mk 0%Z ["A"] (Some "A") (Some 1000%Z)) /\
  hd_error (call_history
    (db (fst (exec (finalizeCallRecord sample_clock "ABCD") connected_pair)))) =
  Some (CallRecord.mk "ABCD" 1000%Z 2000%Z (Qmake 1000 1000) ["A"]).
Proof.
  split; [reflexivity|].
  apply (@finalized_call_heads_history sample_clock connected_pair "ABCD"
           (Room.mk 0%Z ["A"] (Some "A") (Some 1000%Z)) 1000%Z);
    reflexivity.
Defined.

(** ** Persistence *)

(** X17. [saveDB] calls [fs.writeFileSync] at most three times: every write
    before the last one made has failed, it stops at the first write that
    succeeds, and it gives up, without raising, after three failures. *)
Theorem saveDB_tries_at_most_three_times (writes_ok : nat -> bool) :
  let (failures, saved) := saveDB writes_ok in
  (failures + (if saved then 1 else 0) <= 3)%nat /\
  (forall i, (i < failures)%nat -> writes_ok i = false) /\
  (saved = true -> writes_ok failures = true) /\
  (saved = false -> failures = 3%nat).
Proof.
  unfold saveDB. rewrite attemptSave_equation.
  destruct (writes_ok 0%nat) eqn:H0.
  { repeat split; auto; intros; lia. }
  cbn [Nat.ltb Nat.leb maxAttempts]. rewrite attemptSave_equation.
  destruct (writes_ok 1%nat) eqn:H1.
  { repeat split; auto; try lia. intros i Hi. assert (i = 0%nat) by lia. congruence. }
  cbn [Nat.ltb Nat.leb maxAttempts]. rewrite attemptSave_equation.
  destruct (writes_ok 2%nat) eqn:H2.
  { repeat split; auto; try lia. intros i Hi.
    assert (i = 0 \/ i = 1)%nat as [->| ->] by lia; assumption. }
  cbn [Nat.ltb Nat.leb maxAttempts].
  repeat split; auto; try discriminate. intros i Hi.
  assert (i = 0 \/ i = 1 \/ i = 2)%nat as [->|[->| ->]] by lia; assumption.
Qed.

(** ** More on the server of [server.js] *)



(** On a fresh server of [server.js]: a join of ZZZZ is answered with
    [error], a join of "constructor" raises. *)
Example legacy_join_samples :
  Legacy.on_join "B" "ZZZZ" fresh =
    (Normal tt, fresh, [Emit (to_socket "B") (ev_error "Room does not exist")]) /\
  Legacy.on_join "B" "constructor" fresh =
    (Thrown "Cannot read properties of undefined (reading 'length')", fresh, []).
Proof. split; reflexivity. Qed.

(** X19. The create of [server.js] accepts any code and acknowledges
    nothing.  Unless the code is [__proto__] and no room is registered
    under it, the code then names a fresh room listing the creator only,
    with no [connectedAt]; a room that was registered under the code is
    replaced, so that none of its other participants is listed any more;
    other rooms are untouched.  Under the code [__proto__] without a room
    of that name the assignment replaces the prototype of the table: no
    room is added. *)
Theorem legacy_create_replaces_room (clock : nat -> Time) (s : Server)
    (socket : SocketId) (room : string) :
  let (s', out) := exec (Legacy.on_create clock socket room) s in
  out = [SocketJoin socket room] /\
  dates s' = S (dates s) /\
  (room <> "__proto__" \/ JsObject.has room (rooms (db s)) = true ->
     JsObject.get room (rooms (db s')) =
       Some (Room.mk (clock (dates s)) [socket] None None) /\
     (forall other, other <> room ->
        JsObject.get other (rooms (db s')) = JsObject.get other (rooms (db s))) /\
     (forall p, p <> socket -> is_participant (db s') room p = false) /\
     pristine s' = pristine s) /\
  (room = "__proto__" -> JsObject.has room (rooms (db s)) = false ->
     db s' = db s /\ pristine s' = false).
Proof.
  rewrite legacy_on_create_eq.
  destruct (JsObject.has room (rooms (db s))) eqn:Hhas; cbn [negb andb].
  - split; [reflexivity|]. split; [reflexivity|].
    split; [|intros; discriminate]. intros _. cbn [db rooms set_rooms pristine].
    split; [apply JsObjectFacts.get_set_same|].
    split; [intros; apply JsObjectFacts.get_set_other; assumption|].
    split; [|reflexivity].
    intros p Hne. unfold is_participant. cbn [db rooms set_rooms].
    rewrite JsObjectFacts.get_set_same. cbn.
    apply String.eqb_neq in Hne. rewrite Hne. reflexivity.
  - destruct (String.eqb_spec room "__proto__") as [->|Hroom].
    + split; [reflexivity|]. split; [reflexivity|].
      split; [intros [E|E]; [contradiction|discriminate]|].
      intros _ _. split; reflexivity.
    + split; [reflexivity|]. split; [reflexivity|].
      split; [|intros; contradiction]. intros _.
      cbn [db rooms set_rooms pristine].
      split; [apply JsObjectFacts.get_set_same|].
      split; [intros; apply JsObjectFacts.get_set_other; assumption|].
      split; [|reflexivity].
      intros p Hne. unfold is_participant. cbn [db rooms set_rooms].
      rewrite JsObjectFacts.get_set_same. cbn.
      apply String.eqb_neq in Hne. rewrite Hne. reflexivity.
Qed.

(** On a fresh server of [server.js]: ABCD is registered, [__proto__] is
    not. *)
Example legacy_create_samples :
  exec (Legacy.on_create sample_clock "A" "ABCD") fresh =
    (mkServer
       (mkDB [] [] [("ABCD", Room.mk 0%Z ["A"] None None)] (Stats.mk 0 0 0))
       1 true,
     [SocketJoin "A" "ABCD"]) /\
  exec (Legacy.on_create sample_clock "A" "__proto__") fresh =
    (mkServer emptyDB 1 false, [SocketJoin "A" "__proto__"]).
Proof. split; reflexivity. Qed.

Lemma legacy_on_leave_message_eq clock socket room message s :
  Legacy.on_leave_message clock socket room message s =
  if negb (JsObject.has room (offlineMessages (db s))) && JsObject.inherited room
  then (Thrown "db.offlineMessages[room].push is not a function",
        mkServer (db s) (S (dates s)) (pristine s), [])
  else (Normal tt,
        mkServer
          (set_offlineMessages
             (JsObject.set room
                (queue s room ++ [OfflineMessage.mk socket message (clock (dates s))])
                (if JsObject.has room (offlineMessages (db s))
                 then offlineMessages (db s)
                 else JsObject.set room [] (offlineMessages (db s))))
             (db s))
          (S (dates s)) (pristine s),
        [Emit (socket_to socket room) (ev_offline_message socket message)]).
Proof.
  unfold Legacy.on_leave_message, queue. js_eval. unfold JsObject.has.
  destruct (JsObject.get room (offlineMessages (db s))) as [q|] eqn:Hq;
    cbn [orb negb andb]; js_eval.
  - rewrite Hq. reflexivity.
  - destruct (JsObject.inherited room); cbn [negb]; js_eval.
    + rewrite Hq. reflexivity.
    + rewrite JsObjectFacts.get_set_same. reflexivity.
Qed.

(** X20. The leave_message of [server.js] checks nothing.  For a name
    that has a queue or (in a process whose prototypes are untouched) that
    the table of queues does not inherit, registered as a room or not, and
    for any message, it appends the message to the queue kept under that
    name and sends it to the group without the sender; other queues and the
    rooms are untouched.  Under a name the table inherits that has no queue
    of its own, [push] raises after the clock was read and the exception
    leaves the handler: nothing is appended and nothing is sent. *)
Theorem legacy_leave_message_unchecked (clock : nat -> Time) (s : Server)
    (socket : SocketId) (room : string) (message : Value) :
  (JsObject.has room (offlineMessages (db s)) = true \/
   JsObject.inherited room = false /\ pristine s = true ->
     let (s', out) := exec (Legacy.on_leave_message clock socket room message) s in
     out = [Emit (socket_to socket room) (ev_offline_message socket message)] /\
     queue s' room =
       queue s room ++ [OfflineMessage.mk socket message (clock (dates s))] /\
     (forall other, other <> room -> queue s' other = queue s other) /\
     rooms (db s') = rooms (db s)) /\
  (JsObject.has room (offlineMessages (db s)) = false ->
   JsObject.inherited room = true ->
     Legacy.on_leave_message clock socket room message s =
     (Thrown "db.offlineMessages[room].push is not a function",
      mkServer (db s) (S (dates s)) (pristine s), [])).
Proof.
  unfold exec. rewrite legacy_on_leave_message_eq.
  destruct (negb (JsObject.has room (offlineMessages (db s))) &&
            JsObject.inherited room) eqn:Hpush.
  - apply andb_true_iff in Hpush. destruct Hpush as [Hq Hin].
    apply negb_true_iff in Hq.
    split; [intros [E|[E _]]; congruence | reflexivity].
  - split; [|intros E1 E2; rewrite E1, E2 in Hpush; discriminate].
    intros _.
    split; [reflexivity|]. split; [|split; [|reflexivity]].
    + unfold queue at 1. cbn [db offlineMessages set_offlineMessages].
      rewrite JsObjectFacts.get_set_same. reflexivity.
    + intros other Hother. unfold queue.
      cbn [db offlineMessages set_offlineMessages].
      rewrite JsObjectFacts.get_set_other by assumption.
      destruct (JsObject.has room (offlineMessages (db s))); [reflexivity|].
      rewrite JsObjectFacts.get_set_other by assumption. reflexivity.
Qed.

(** On a fresh server of [server.js]: a message for "constructor" raises
    at [push], a message for ZZZZ is queued though no such room exists. *)
Example legacy_leave_message_samples :
  Legacy.on_leave_message sample_clock "A" "constructor" (VString "hello") fresh =
    (Thrown "db.offlineMessages[room].push is not a function",
     mkServer emptyDB 1 true, []) /\
  exec (Legacy.on_leave_message sample_clock "A" "ZZZZ" (VString "hello")) fresh =
    (mkServer
       (mkDB [] [("ZZZZ", [OfflineMessage.mk "A" (VString "hello") 0%Z])] []
          (Stats.mk 0 0 0))
       1 true,
     [Emit (socket_to "A" "ZZZZ") (ev_offline_message "A" (VString "hello"))]).
Proof. split; reflexivity. Qed.

Lemma legacy_rooms_bounded_witness :
  bounded fresh /\ bounded (fst (Legacy.run sample_clock fresh scenario)).
Proof.
  assert (H : bounded fresh) by (intros k r E; discriminate E).
  split; [exact H|].
  apply (@legacy_rooms_bounded sample_clock fresh scenario H).
Defined.

Lemma remove_participant_inline_eq clock room socketId nout s :
  remove_participant_inline clock room socketId (fun s0 => (Normal tt, s0, nout)) s =
  (Normal tt, removal clock room socketId s,
   if removes room socketId s then nout else []).
Proof.
  unfold remove_participant_inline, removal, removes.
  js_eval.
  destruct (JsObject.get room (rooms (db s))) as [roomObj|] eqn:Hget;
    [|reflexivity].
  destruct (indexOf socketId (Room.participants roomObj)) as [index|];
    [|reflexivity].
  js_eval. rewrite Hget. js_eval.
  destruct (splice1 index (Room.participants roomObj)) as [|p rest];
    destruct (Room.connectedAt roomObj) as [startTime|];
    cbn [List.length Nat.eqb is_set andb]; js_eval; rewrite ?app_nil_r;
    reflexivity.
Qed.

Lemma for_in_ext (f g : string -> JS unit) ks :
  (forall k s, f k s = g k s) -> forall s, for_in ks f s = for_in ks g s.
Proof.
  intros H. induction ks as [|k ks IH]; intros s; [reflexivity|].
  cbn [for_in]. unfold bind. rewrite H.
  destruct (g k s) as [[[[]|msg] s1] out1]; [rewrite IH|]; reflexivity.
Qed.

(** X22. The accounting statements that the disconnect and leave handlers
    of [server.js] carry inline have the effect of [cleanupSocketRooms],
    [cleanupRoom] and [finalizeCallRecord]: written out literally they
    behave as the handlers modelled in [Legacy], and they leave the same
    state as the handlers with acknowledgements. *)
Theorem legacy_inline_accounting (clock : nat -> Time) (s : Server)
    (socket : SocketId) (room : string) :
  exec (on_disconnect_inline clock socket) s =
    exec (Legacy.on_disconnect clock socket) s /\
  exec (on_leave_inline clock socket room) s =
    exec (Legacy.on_leave clock socket room) s /\
  fst (exec (on_disconnect_inline clock socket) s) =
    fst (exec (on_disconnect clock socket) s) /\
  fst (exec (on_leave_inline clock socket room) s) =
    fst (exec (on_leave clock socket room) s).
Proof.
  assert (Hd : exec (on_disconnect_inline clock socket) s =
               exec (Legacy.on_disconnect clock socket) s).
  { unfold on_disconnect_inline, Legacy.on_disconnect, exec, bind, get_db.
    rewrite (for_in_ext
      (fun room0 => remove_participant_inline clock room0 socket
                      (emit (socket_to socket room0) ev_leave))
      (fun room0 => remove_participant clock room0 socket
                      (emit (socket_to socket room0) ev_leave))); [reflexivity|].
    intros k s0.
    change (emit (socket_to socket k) ev_leave)
      with (fun s1 : Server => (Normal tt, s1, [Emit (socket_to socket k) ev_leave])).
    rewrite remove_participant_inline_eq, remove_participant_eq. reflexivity. }
  assert (Hl : exec (on_leave_inline clock socket room) s =
               exec (Legacy.on_leave clock socket room) s).
  { unfold on_leave_inline, Legacy.on_leave, exec, bind, act, get_db, when.
    destruct (negb (JsObject.has room (rooms (db s))) && JsObject.inherited room);
      [reflexivity|].
    change (ret tt s) with (Normal tt, s, @nil Action). cbv iota beta.
    change (ret tt) with (fun s0 : Server => (Normal tt, s0, @nil Action)).
    rewrite remove_participant_inline_eq, remove_participant_eq. reflexivity. }
  split; [exact Hd|]. split; [exact Hl|].
  rewrite Hd, Hl.
  rewrite legacy_on_disconnect_eq, legacy_on_leave_state, on_disconnect_eq,
    on_leave_state.
  split; reflexivity.
Qed.
